(** * GPU fault suppression and escalation: a shallow embedding

    The development follows four source files:
    - [lib/exclusion_manager.py]: the suppression store ([ExclusionManager]),
      a JSON file re-read and re-written by every operation;
    - [lib/handlers/sns_handler.py]: the urgency tier of an error class;
    - [lib/handlers/error_dispatch.py]: the requests the monitor dispatches;
    - [dcgm-monitor-and-auto-recover.py]: the escalation policy
      ([handle_gpu_error], second definition, the one Python keeps) and the
      polling loop ([monitor_single_node], [monitor_all_nodes]).

    Timestamps ([time.time()]) are integers here, in seconds; the code only
    subtracts and compares them. *)

From Stdlib Require Import ZArith Lia.
From stdpp Require Import base option list gmap fin_maps strings pretty.

Local Open Scope string_scope.
Local Open Scope list_scope.
Local Open Scope Z_scope.

(** ** Python primitives used by the sources *)

Module Py.

(** [sub in s] on strings: [sub] occurs in [s] as a contiguous substring. *)
Fixpoint contains (sub s : string) : bool :=
  if String.prefix sub s then true
  else match s with
       | EmptyString => false
       | String _ s' => contains sub s'
       end.

(** [x or d] for an [Optional[int]]: [None] and [0] are falsy. *)
Definition or_int (x : option Z) (d : Z) : Z :=
  match x with
  | Some v => if v =? 0 then d else v
  | None => d
  end.

(** [a != b] on strings. *)
Definition str_ne (a b : string) : bool := negb (String.eqb a b).

(** Truthiness of an [Optional[str]]: [None] and the empty string are falsy. *)
Definition truthy_str (x : option string) : bool :=
  match x with
  | Some s => negb (String.eqb s EmptyString)
  | None => false
  end.

End Py.

(** ** The suppression store, [lib/exclusion_manager.py] *)

Module ExclusionManager.

(** One entry of the JSON object.  The readers go through
    [info.get(key, default)], so every key may be absent. *)
Record ExclusionInfo := {
  node_name : option string;
  error_type : option string;
  start_time : option Z;
  timeout : option Z;
  readable_time : option string;
  expires_at : option string
}.

(** [if info:] -- a dict is truthy when it has at least one key. *)
Definition truthy (info : ExclusionInfo) : bool :=
  match node_name info, error_type info, start_time info,
        timeout info, readable_time info, expires_at info with
  | None, None, None, None, None, None => false
  | _, _, _, _, _, _ => true
  end.

(** What [open]/[json.load] meet at [self.exclusion_file]: no file, one
    of the two failures that [_load_exclusions] catches, or a JSON object
    of records.  The exceptions it does not catch are in [ExclusionFile]
    below. *)
Inductive FileState :=
| FileMissing                       (* os.path.exists is False *)
| FileUnreadable                    (* open/read raises IOError *)
| FileMalformed                     (* json.load raises JSONDecodeError *)
| FileJson (exclusions : gmap string ExclusionInfo).

(** How one attempt to rewrite the file ends: it completes, or it fails
    with the [IOError] that [_save_exclusions] catches. *)
Inductive WriteOutcome :=
| WriteOk                           (* json.dump completed *)
| WriteFailsAtOpen                  (* makedirs/open raised: file untouched *)
| WriteFailsMidway.                 (* truncated by open, then dump raised *)

Record t := {
  exclusion_file : string;
  default_timeout : Z
}.

(** [ExclusionManager()] with the defaults of [__init__]. *)
Definition __init__ : t :=
  {| exclusion_file := "./gpu_monitor_exclusions.json";
     default_timeout := 1800 |}.

Definition _load_exclusions (fs : FileState) : gmap string ExclusionInfo :=
  match fs with
  | FileMissing => ∅
  | FileJson exclusions => exclusions
  | FileUnreadable | FileMalformed => ∅      (* except (JSONDecodeError, IOError) *)
  end.

Definition _save_exclusions (exclusions : gmap string ExclusionInfo)
    (disk : WriteOutcome) (fs : FileState) : bool * FileState :=
  match disk with
  | WriteOk => (true, FileJson exclusions)
  | WriteFailsAtOpen => (false, fs)           (* except IOError *)
  | WriteFailsMidway => (false, FileMalformed)
  end.

Section WithClock.

(** [datetime.fromtimestamp(t).strftime('%Y-%m-%d %H:%M:%S')], which
    depends on the local time zone of the host. *)
Variable strftime : Z → string.

(** Every operation below takes the value [current_time] that its call of
    [time.time()] returns, the outcome [disk] of the write it may attempt,
    and the file it finds; it returns its result and the file it leaves. *)

Definition add_exclusion (self : t) (instance_id node_name error_type : string)
    (timeout : option Z) (current_time : Z) (disk : WriteOutcome)
    (fs : FileState) : bool * FileState :=
  let exclusions := _load_exclusions fs in
  match exclusions !! instance_id with
  | Some _ => (false, fs)
  | None =>
      let timeout := Py.or_int timeout (default_timeout self) in
      let exclusions :=
        <[instance_id :=
            {| node_name := Some node_name;
               error_type := Some error_type;
               start_time := Some current_time;
               timeout := Some timeout;
               readable_time := Some (strftime current_time);
               expires_at := Some (strftime (current_time + timeout)) |}]>
          exclusions in
      let saved := _save_exclusions exclusions disk fs in
      if saved.1 then (true, saved.2) else (false, saved.2)
  end.

Definition remove_exclusion (self : t) (instance_id : string)
    (disk : WriteOutcome) (fs : FileState) : bool * FileState :=
  let exclusions := _load_exclusions fs in
  match exclusions !! instance_id with
  | None => (false, fs)
  | Some _ =>
      let exclusions := delete instance_id exclusions in
      let saved := _save_exclusions exclusions disk fs in
      if saved.1 then (true, saved.2) else (false, saved.2)
  end.

Definition is_excluded (self : t) (instance_id : string) (fs : FileState) : bool :=
  let exclusions := _load_exclusions fs in
  bool_decide (is_Some (exclusions !! instance_id)).

Definition get_exclusion_info (self : t) (instance_id : string)
    (fs : FileState) : option ExclusionInfo :=
  let exclusions := _load_exclusions fs in
  exclusions !! instance_id.

(** The test of the sweep: [current_time - start_time > timeout]. *)
Definition expired (self : t) (current_time : Z) (info : ExclusionInfo) : bool :=
  let start_time := default 0 (start_time info) in
  let timeout := default (default_timeout self) (timeout info) in
  timeout <? current_time - start_time.

(** The first loop of [cleanup_expired]: the keys whose record passes the
    test. *)
Definition expired_instances (self : t) (current_time : Z)
    (exclusions : gmap string ExclusionInfo) : list string :=
  (filter (λ item, expired self current_time item.2 = true)
          (map_to_list exclusions)).*1.

(** The second loop deletes the collected keys one by one; deletions
    commute, so the order of the fold is immaterial. *)
Definition cleanup_expired (self : t) (current_time : Z) (disk : WriteOutcome)
    (fs : FileState) : nat * FileState :=
  let exclusions := _load_exclusions fs in
  let expired_instances := expired_instances self current_time exclusions in
  let exclusions := foldr delete exclusions expired_instances in
  match expired_instances with
  | [] => (length expired_instances, fs)
  | _ :: _ =>
      (length expired_instances, (_save_exclusions exclusions disk fs).2)
  end.

(** The skip reason of [should_monitor]. *)
Definition skip_reason (info : ExclusionInfo) : string :=
  let error_type := default "unknown" (error_type info) in
  let readable_time := default "unknown" (readable_time info) in
  "Reason: " +:+ error_type +:+ " Handling in Progress (Exclusion Time: "
    +:+ readable_time +:+ ")".

Definition should_monitor (self : t) (instance_id node_name : string)
    (current_time : Z) (disk : WriteOutcome) (fs : FileState)
    : (bool * option string) * FileState :=
  let fs := (cleanup_expired self current_time disk fs).2 in
  if is_excluded self instance_id fs then
    match get_exclusion_info self instance_id fs with
    | Some info =>
        if truthy info then (false, Some (skip_reason info), fs)
        else (true, None, fs)
    | None => (true, None, fs)
    end
  else (true, None, fs).

Definition pause_instance (self : t) (instance_id node_name reason : string)
    (timeout : option Z) (current_time : Z) (disk : WriteOutcome)
    (fs : FileState) : bool * FileState :=
  let added :=
    add_exclusion self instance_id node_name reason timeout current_time disk fs in
  if added.1 then (true, added.2) else (false, added.2).

Definition resume_instance (self : t) (instance_id : string)
    (disk : WriteOutcome) (fs : FileState) : bool * FileState :=
  let removed := remove_exclusion self instance_id disk fs in
  if removed.1 then (true, removed.2) else (false, removed.2).

(** *** Names used in the statements below *)

(** The map the sweep is left with. *)
Definition swept (self : t) (current_time : Z)
    (exclusions : gmap string ExclusionInfo) : gmap string ExclusionInfo :=
  foldr delete exclusions (expired_instances self current_time exclusions).

(** The record [add_exclusion] builds. *)
Definition new_record (self : t) (node_name error_type : string)
    (timeout : option Z) (current_time : Z) : ExclusionInfo :=
  let timeout := Py.or_int timeout (default_timeout self) in
  {| node_name := Some node_name;
     error_type := Some error_type;
     start_time := Some current_time;
     timeout := Some timeout;
     readable_time := Some (strftime current_time);
     expires_at := Some (strftime (current_time + timeout)) |}.

(** Two results agree when they return the same value and leave files
    that load to the same map. *)
Definition agree {A} (r1 r2 : A * FileState) : Prop :=
  r1.1 = r2.1 ∧ _load_exclusions r1.2 = _load_exclusions r2.2.

End WithClock.

End ExclusionManager.

(** ** The exceptions of the two file helpers

    [ExclusionManager] follows the store through the failures that
    [_load_exclusions] and [_save_exclusions] catch.  Here is what reaches
    their [except] clauses and what passes them: an exception that is not
    caught leaves the helper, and then the operation that called it.  A
    file whose JSON is not an object of records is outside both models. *)

Module ExclusionFile.

Import ExclusionManager.

(** The exceptions that [open], [json.load] and [json.dump] raise on the
    file.  [JSONDecodeError] is for text that decodes and is not JSON;
    [UnicodeDecodeError], for bytes that are not UTF-8, and
    [UnicodeEncodeError], for a string that UTF-8 cannot encode (a lone
    surrogate), are [ValueError]s and no [IOError]s. *)
Inductive PyError :=
| IOError
| JSONDecodeError
| UnicodeDecodeError
| UnicodeEncodeError.

Inductive Result (A : Type) :=
| Return (a : A)
| Raise (e : PyError).

Arguments Return {A} a.
Arguments Raise {A} e.

(** What the body of [_load_exclusions] meets at [self.exclusion_file]. *)
Inductive ReadAttempt :=
| NoFile                            (* os.path.exists is False *)
| ReadRaises (e : PyError)          (* open or json.load raises e *)
| ReadJson (exclusions : gmap string ExclusionInfo).
                                    (* json.load returns this object of records *)

(** How the [try] of [_save_exclusions] ends. *)
Inductive WriteAttempt :=
| WriteCompletes
| WriteRaises (e : PyError).        (* makedirs, open or json.dump raises e *)

Definition _load_exclusions (read : ReadAttempt)
    : Result (gmap string ExclusionInfo) :=
  match read with
  | NoFile => Return ∅
  | ReadJson exclusions => Return exclusions
  | ReadRaises e =>
      match e with
      | JSONDecodeError | IOError => Return ∅  (* except (JSONDecodeError, IOError) *)
      | _ => Raise e
      end
  end.

Definition _save_exclusions (write : WriteAttempt) : Result bool :=
  match write with
  | WriteCompletes => Return true
  | WriteRaises e =>
      match e with
      | IOError => Return false                (* except IOError *)
      | _ => Raise e
      end
  end.

(** What [add_exclusion] and [remove_exclusion] return or raise. *)
Definition add_exclusion (instance_id : string) (read : ReadAttempt)
    (write : WriteAttempt) : Result bool :=
  match _load_exclusions read with
  | Raise e => Raise e
  | Return exclusions =>
      match exclusions !! instance_id with
      | Some _ => Return false
      | None =>
          match _save_exclusions write with
          | Raise e => Raise e
          | Return saved => if saved then Return true else Return false
          end
      end
  end.

Definition remove_exclusion (instance_id : string) (read : ReadAttempt)
    (write : WriteAttempt) : Result bool :=
  match _load_exclusions read with
  | Raise e => Raise e
  | Return exclusions =>
      match exclusions !! instance_id with
      | None => Return false
      | Some _ =>
          match _save_exclusions write with
          | Raise e => Raise e
          | Return saved => if saved then Return true else Return false
          end
      end
  end.



End ExclusionFile.

(** ** Urgency tiers, [lib/handlers/sns_handler.py] *)

Module SNSHandler.

(** The three labels [_get_urgency_level] returns (the source returns them
    as display strings). *)
Inductive Urgency := CRITICAL | WARNING | INFO.

Definition critical_errors : list string :=
  ["XID_CRITICAL_999"; "XID_CRITICAL_79"; "XID_CRITICAL_74";
   "ECC_ERROR"; "GPU_HEALTH_ERROR"].

Definition warning_errors : list string :=
  ["XID_WARNING_43"; "XID_WARNING_62"; "XID_WARNING_31";
   "GPU_HEALTH_WARNING"].

Definition _get_urgency_level (error_type : string) : Urgency :=
  if bool_decide (error_type ∈ critical_errors) then CRITICAL
  else if bool_decide (error_type ∈ warning_errors) then WARNING
  else INFO.

End SNSHandler.

(** ** Requests to the dispatcher, [lib/handlers/error_dispatch.py]

    The three methods the monitor calls.  Each catches every exception of its
    body and returns a status dict, which the monitor only logs: a call is
    recorded as the request it makes. *)

Module ErrorHandlerDispatch.

Inductive Request :=
| send_cloudwatch_metrics (error_type : string) (error_count : Z)
                          (node_name instance_id : string)
| call_replace_script (node_name instance_id : string) (wait_time : Z)
| call_reboot_script (node_name instance_id : string) (wait_time : Z)
                     (async_mode : bool).

Definition is_metric (r : Request) : bool :=
  match r with send_cloudwatch_metrics _ _ _ _ => true | _ => false end.

Definition is_remediation (r : Request) : bool :=
  match r with
  | call_replace_script _ _ _ | call_reboot_script _ _ _ _ => true
  | send_cloudwatch_metrics _ _ _ _ => false
  end.

End ErrorHandlerDispatch.

(** ** Text helpers: [str.strip], [str.split], [str.join] *)

Module PyText.

(** [str.isspace] on ASCII text: tab, line feed, vertical tab, form feed,
    carriage return, the four separators 28-31, and space. *)
Definition is_space (c : Ascii.ascii) : bool :=
  let n := Ascii.nat_of_ascii c in
  ((9 <=? n) && (n <=? 13) || (28 <=? n) && (n <=? 32))%nat.

Fixpoint lstrip (s : string) : string :=
  match s with
  | EmptyString => EmptyString
  | String c s' => if is_space c then lstrip s' else s
  end.

Fixpoint rstrip (s : string) : string :=
  match s with
  | EmptyString => EmptyString
  | String c s' =>
      match rstrip s' with
      | EmptyString => if is_space c then EmptyString else String c EmptyString
      | r => String c r
      end
  end.

(** [s.strip()] *)
Definition strip (s : string) : string := rstrip (lstrip s).

(** [s.split(sep)] for a separator of one character: never an empty list,
    the empty string splits into one empty piece. *)
Fixpoint split (sep : Ascii.ascii) (s : string) : list string :=
  match s with
  | EmptyString => [EmptyString]
  | String c s' =>
      if Ascii.eqb c sep then EmptyString :: split sep s'
      else match split sep s' with
           | [] => [String c EmptyString]
           | piece :: pieces => String c piece :: pieces
           end
  end.

(** [sep.join(pieces)] *)
Fixpoint join (sep : Ascii.ascii) (pieces : list string) : string :=
  match pieces with
  | [] => EmptyString
  | [piece] => piece
  | piece :: rest => piece +:+ String sep (join sep rest)
  end.

(** The characters of a string. *)
Fixpoint chars (s : string) : list Ascii.ascii :=
  match s with
  | EmptyString => []
  | String c s' => c :: chars s'
  end.

Definition newline : Ascii.ascii := Ascii.ascii_of_nat 10.

Definition pipe : Ascii.ascii := Ascii.ascii_of_nat 124.

(** Truthiness of a [str]: the empty string is falsy. *)
Definition truthy (s : string) : bool := negb (String.eqb s EmptyString).

End PyText.

(** ** The monitor, [dcgm-monitor-and-auto-recover.py] *)

Module DCGMMonitor.

Import ExclusionManager ErrorHandlerDispatch.

(** Exceptions that reach the monitor; all are subclasses of [Exception]. *)
Inductive Exception :=
| ValueError (msg : string)
| KeyError (key : string)
| OtherException (msg : string).

(** The dict the classifier returns:
    [{'error_class': ..., 'error_count': ..., 'error_gpu_id': ...}],
    any key of which the model may have left out. *)
Record ParsedError := {
  error_class : option string;
  error_count : option Z;
  error_gpu_id : option Z
}.

(** What [parse_gpu_metric_info] does on a report. *)
Inductive LLMResult :=
| LLMDict (d : ParsedError)
| LLMNotDict                        (* JSON, but not an object *)
| LLMRaises (e : Exception).        (* Bedrock call or JSON parsing failed *)

(** The world outside the process during a run.  [now k] and [disk k] are
    the clock and the behaviour of the disk during the [k]-th operation on
    the exclusion store, and [shell_get_instance_id k] is what the shell
    function [get_instance_id] does when it is called with [k] operations
    on the store behind it: the lookup of one node may fail in one
    evaluation and succeed in the next.  [pods_with_nodes] is the list of
    [(pod_name, node_name)] pairs that [get_dcgm_pods_with_nodes] returns;
    the two shell fields give [Some output] when the shell function of
    [gpu-utils.sh] succeeds, [output] being its standard output as
    [_run_shell_command] returns it, stripped. *)
Record Env := {
  strftime : Z → string;
  now : nat → Z;
  disk : nat → WriteOutcome;
  pods_with_nodes : list (string * string);
  shell_get_instance_id : nat → string → option string;
  shell_query_dcgm_metrics : string → string → option string;
  parse_gpu_metric_info : string → LLMResult
}.

Inductive Event :=
| GetInstanceId (node_name : string)
| QueryDcgmMetrics (pod_name node_name : string)
| ParseGpuMetricInfo (metrics : string)
| Dispatched (r : Request)
| LoggedException (node_name : string) (e : Exception).

Record World := {
  file : FileState;                 (* gpu_monitor_exclusions.json *)
  trace : list Event;               (* calls made so far, oldest first *)
  store_ops : nat                   (* operations on the store so far *)
}.

Record t := { exclusion_manager : ExclusionManager.t }.

Definition __init__ : t :=
  {| exclusion_manager := ExclusionManager.__init__ |}.

(** A computation either returns or raises, and leaves a world. *)
Inductive Outcome (A : Type) :=
| Returns (a : A)
| Raises (e : Exception).
Arguments Returns {A} a.
Arguments Raises {A} e.

Definition M (A : Type) : Type := World → Outcome A * World.

#[export] Instance M_ret : MRet M := λ A a w, (Returns a, w).

#[export] Instance M_bind : MBind M := λ A B k c w,
  match c w with
  | (Returns a, w') => k a w'
  | (Raises e, w') => (Raises e, w')
  end.

Definition raise {A} (e : Exception) : M A := λ w, (Raises e, w).

(** [try: body  except Exception as e: handler(e)] *)
Definition try_except {A} (body : M A) (handler : Exception → M A) : M A :=
  λ w, match body w with
       | (Returns a, w') => (Returns a, w')
       | (Raises e, w') => handler e w'
       end.

Definition emit (e : Event) : M unit := λ w,
  (Returns (), {| file := file w; trace := trace w ++ [e];
                  store_ops := store_ops w |}).

Definition store_op {A} (env : Env)
    (op : Z → WriteOutcome → FileState → A * FileState) : M A := λ w,
  let r := op (now env (store_ops w)) (disk env (store_ops w)) (file w) in
  (Returns r.1, {| file := r.2; trace := trace w;
                   store_ops := S (store_ops w) |}).

(** A call of a shell function, whose answer may depend on the moment. *)
Definition shell {A} (call : nat → A) : M A := λ w,
  (Returns (call (store_ops w)), w).

(** [d[key]], a [KeyError] when the key is absent. *)
Definition getitem {A} (key : string) (field : option A) : M A :=
  match field with
  | Some v => mret v
  | None => raise (KeyError key)
  end.

Section Monitor.

Variable env : Env.
Variable self : t.

Definition get_instance_id (node_name : string) : M string :=
  emit (GetInstanceId node_name);;
  result ← shell (λ k, shell_get_instance_id env k node_name);
  match result with
  | Some output =>                          (* success *)
      if PyText.truthy output then mret (PyText.strip output)
      else mret node_name                   (* fallback to node name *)
  | None => mret node_name                  (* fallback to node name *)
  end.

Definition query_dcgm_metrics (pod_name node_name : string) : M (option string) :=
  emit (QueryDcgmMetrics pod_name node_name);;
  mret (shell_query_dcgm_metrics env pod_name node_name).

Definition process_metrics_llm (metrics : string) : M ParsedError :=
  emit (ParseGpuMetricInfo metrics);;
  match parse_gpu_metric_info env metrics with
  | LLMDict parse_result => mret parse_result
  | LLMNotDict => raise (ValueError "LLM Result Parse Failed")
  | LLMRaises e => raise e
  end.

(** The second definition of [handle_gpu_error], which replaces the
    first (severity-level) one when the class body is executed. *)
Definition handle_gpu_error (parsed_error : ParsedError)
    (node_name instance_id : string) : M unit :=
  error_class ← getitem "error_class" (error_class parsed_error);
  error_count ← getitem "error_count" (error_count parsed_error);
  (if Py.str_ne "HEALTHY" error_class then
     emit (Dispatched
             (send_cloudwatch_metrics error_class error_count node_name instance_id))
   else mret ());;
  if Py.contains "XID" error_class && (5 <? error_count) then
    let timeout := 900 in
    store_op env (add_exclusion (strftime env) (exclusion_manager self)
                    instance_id node_name error_class (Some timeout));;
    emit (Dispatched (call_replace_script node_name instance_id timeout))
  else if Py.contains "XID" error_class && (error_count <=? 5) then
    let timeout := 200 in
    store_op env (add_exclusion (strftime env) (exclusion_manager self)
                    instance_id node_name error_class (Some timeout));;
    emit (Dispatched (call_reboot_script node_name instance_id 30 true))
  else mret ().

Definition monitor_single_node (pod_name node_name : string) : M bool :=
  instance_id ← get_instance_id node_name;
  '(should_monitor, skip_reason) ←
    store_op env (should_monitor (exclusion_manager self) instance_id node_name);
  if negb should_monitor then mret true
  else
    metrics ← query_dcgm_metrics pod_name node_name;
    if negb (Py.truthy_str metrics) then mret false
    else
      error_detail ← process_metrics_llm (default EmptyString metrics);
      error_class ← getitem "error_class" (error_class error_detail);
      (if Py.str_ne "HEALTHY" error_class then
         handle_gpu_error error_detail node_name instance_id
       else mret ());;
      mret true.

(** [for pod_name, node_name in pods_info: try: ... except Exception] *)
Fixpoint monitor_each (pods_info : list (string * string)) : M unit :=
  match pods_info with
  | [] => mret ()
  | (pod_name, node_name) :: rest =>
      try_except (monitor_single_node pod_name node_name;; mret ())
                 (λ e, emit (LoggedException node_name e));;
      monitor_each rest
  end.

Definition monitor_all_nodes : M unit :=
  let pods_info := pods_with_nodes env in
  match pods_info with
  | [] => mret ()                           (* "DCGM Pods NOT Found" *)
  | _ :: _ => monitor_each pods_info
  end.

(** *** Names used in the statements below *)

(** One turn of the loop: the [try]/[except] around one resource. *)
Definition guarded (pod_name node_name : string) : M unit :=
  try_except (monitor_single_node pod_name node_name;; mret ())
             (λ e, emit (LoggedException node_name e)).

(** The file that [add_exclusion], called by the policy in world [w] with
    the given timeout, leaves behind. *)
Definition file_after_add (w : World) (instance_id node_name error_class : string)
    (timeout : Z) : FileState :=
  (add_exclusion (strftime env) (exclusion_manager self) instance_id node_name
     error_class (Some timeout) (now env (store_ops w)) (disk env (store_ops w))
     (file w)).2.

(** The world in which the handler of the loop has logged [e]. *)
Definition logged_in (w : World) (node_name : string) (e : Exception) : World :=
  {| file := file w; trace := trace w ++ [LoggedException node_name e];
     store_ops := store_ops w |}.

End Monitor.

(** Projections of a trace: the requests dispatched, and the nodes whose
    instance id was asked for. *)
Definition requests (tr : list Event) : list Request :=
  omap (λ e, match e with Dispatched r => Some r | _ => None end) tr.

Definition evaluated (tr : list Event) : list string :=
  omap (λ e, match e with GetInstanceId n => Some n | _ => None end) tr.

(** Computations that make no [GetInstanceId] call. *)
Definition quiet {A} (c : M A) : Prop :=
  ∀ w, ∃ tl, trace (c w).2 = trace w ++ tl ∧ evaluated tl = [].

End DCGMMonitor.

(** ** A concrete cycle *)

Module Scenario.

Import ExclusionManager ErrorHandlerDispatch DCGMMonitor.

(** Three nodes are polled: the classifier's answer for the first is not a
    dict, the telemetry of the second cannot be fetched, and the third
    reports seven XID errors of a critical class.  A fourth node, outside
    the list, is healthy. *)
Definition env : Env :=
  {| strftime := λ t, "epoch " +:+ pretty t;
     now := λ k, 1751642182 + Z.of_nat k;
     disk := λ _, WriteOk;
     pods_with_nodes :=
       [("dcgm-server-2gttt", "node-1"); ("dcgm-server-8nk94", "node-2");
        ("dcgm-server-zx5gc", "node-3")];
     shell_get_instance_id := λ _ node_name,
       if String.eqb node_name "node-3" then Some "i-00cca484c3a2e151b"
       else None;
     shell_query_dcgm_metrics := λ pod_name node_name,
       if String.eqb node_name "node-2" then None
       else Some ("report of " +:+ node_name);
     parse_gpu_metric_info := λ metrics,
       if String.eqb metrics "report of node-3" then
         LLMDict {| error_class := Some "XID_CRITICAL_79";
                    error_count := Some 7;
                    error_gpu_id := Some 0 |}
       else if String.eqb metrics "report of node-4" then
         LLMDict {| error_class := Some "HEALTHY";
                    error_count := Some 0;
                    error_gpu_id := Some 0 |}
       else LLMNotDict |}.

Definition fmt : Z → string := strftime env.

Definition manager : ExclusionManager.t := ExclusionManager.__init__.

Definition monitor : DCGMMonitor.t := DCGMMonitor.__init__.

Definition start : World :=
  {| file := FileMissing; trace := []; store_ops := 0 |}.

Definition descriptor (error_class : string) (error_count : Z) : ParsedError :=
  {| DCGMMonitor.error_class := Some error_class;
     DCGMMonitor.error_count := Some error_count;
     DCGMMonitor.error_gpu_id := Some 0 |}.

(** The world after the policy has handled the report of the third node. *)
Definition after_escalation : World :=
  (handle_gpu_error env monitor (descriptor "XID_CRITICAL_79" 7) "node-3"
     "i-00cca484c3a2e151b" start).2.



(** A store holding one record for [i-1], written at time 0. *)
Definition one_record (timeout : Z) : FileState :=
  (add_exclusion (strftime env) ExclusionManager.__init__ "i-1" "node-1"
     "CRITICAL_X" (Some timeout) 0 WriteOk FileMissing).2.

End Scenario.

(** ** More of the sources: the status listing, pod discovery and the
       command line of the monitor *)

(** [list_exclusions] and [show_status] of [lib/exclusion_manager.py]. *)

Module ExclusionStatus.

Import ExclusionManager.

(** One dict of the list [list_exclusions] returns. *)
Record Item := {
  instance_id : string;
  node_name : string;
  error_type : string;
  start_time : string;
  expires_at : string;
  elapsed_seconds : Z;
  remaining_seconds : Z;
  remaining_minutes : Z
}.

(** The body of the loop, for one [(instance_id, info)] of the dict.
    [int(current_time - start_time)] is the difference itself on integer
    timestamps. *)
Definition item_of (self : ExclusionManager.t) (current_time : Z)
    (entry : string * ExclusionInfo) : Item :=
  let info := entry.2 in
  let start_time := default 0 (ExclusionManager.start_time info) in
  let timeout := default (default_timeout self) (ExclusionManager.timeout info) in
  let elapsed := current_time - start_time in
  let remaining := Z.max 0 (timeout - elapsed) in
  {| instance_id := entry.1;
     node_name := default "unknown" (ExclusionManager.node_name info);
     error_type := default "unknown" (ExclusionManager.error_type info);
     start_time := default "unknown" (readable_time info);
     expires_at := default "unknown" (ExclusionManager.expires_at info);
     elapsed_seconds := elapsed;
     remaining_seconds := remaining;
     remaining_minutes := remaining `div` 60 |}.

(** The items come in the order of [map_to_list], not in the insertion
    order of the Python dict; nothing below depends on the order. *)
Definition list_exclusions (self : ExclusionManager.t) (current_time : Z)
    (fs : FileState) : list Item :=
  let exclusions := _load_exclusions fs in
  item_of self current_time <$> map_to_list exclusions.

(** What [show_status] prints under its banner: the line
    "No Excluded Instances", or the table with one row per item that has
    time left. *)
Inductive Status :=
| NoExcludedInstances
| Table (rows : list Item).

Definition show_status (self : ExclusionManager.t) (current_time : Z)
    (fs : FileState) : Status :=
  let exclusions := list_exclusions self current_time fs in
  match exclusions with
  | [] => NoExcludedInstances
  | _ :: _ => Table (filter (λ item, 0 < remaining_seconds item) exclusions)
  end.

(** The instance has a row in the table. *)
Definition displayed (id : string) (status : Status) : Prop :=
  match status with
  | NoExcludedInstances => False
  | Table rows => ∃ item, item ∈ rows ∧ instance_id item = id
  end.

End ExclusionStatus.

(** [get_dcgm_pods_with_nodes] of the monitor: the parsing of the lines
    [pod|node] that the shell function prints. *)

Module PodDiscovery.

Import PyText.

(** The body of the loop, for one line of the output. *)
Definition parse_line (line : string) : option (string * string) :=
  let line := strip line in
  if Py.contains (String pipe EmptyString) line then
    let parts := split pipe line in
    if (2 <=? length parts)%nat then
      let pod_name := strip (default EmptyString (parts !! 0%nat)) in
      let node_name := strip (default EmptyString (parts !! 1%nat)) in
      if truthy pod_name && truthy node_name then Some (pod_name, node_name)
      else None
    else None
  else None.

(** [gpu_utils_exists]: the file [lib/gpu-utils.sh] is there;
    [(success, output)]: what [_run_shell_command] returns. *)
Definition get_dcgm_pods_with_nodes (gpu_utils_exists success : bool)
    (output : string) : list (string * string) :=
  if negb gpu_utils_exists then []
  else if negb success then []
  else if negb (truthy output) then []
  else omap parse_line (split newline output).

(** A name the shell prints as it is: not empty, no white space, no
    [|]. *)
Definition plain (name : string) : Prop :=
  name ≠ EmptyString
  ∧ Forall (λ c, is_space c = false ∧ c ≠ pipe) (chars name).

(** The output the shell function prints for a list of pairs. *)
Definition render (pods_info : list (string * string)) : string :=
  join newline ((λ pair, pair.1 +:+ String pipe pair.2) <$> pods_info).

End PodDiscovery.

(** The exclusion commands of [main] in
    [dcgm-monitor-and-auto-recover.py]. *)

Module MonitorCLI.

Import ExclusionManager.

(** [--exclusion-cmd], restricted by [argparse] to four choices. *)
Inductive ExclusionCmd := CmdList | CmdCleanup | CmdPause | CmdResume.

Record Args := {
  exclusion_cmd : option ExclusionCmd;
  instance_id : option string;
  node_name : option string;
  reason : option string
}.

(** [x or d] on an optional string. *)
Definition or_str (x : option string) (d : string) : string :=
  if Py.truthy_str x then default d x else d.

(** The branch [if args.exclusion_cmd:] of [main]: the exit status it
    returns and the file it leaves; [None] when no exclusion command was
    given and [main] goes on to start the monitor. *)
Definition main (strftime : Z → string) (args : Args) (current_time : Z)
    (disk : WriteOutcome) (fs : FileState) : option (Z * FileState) :=
  match exclusion_cmd args with
  | None => None
  | Some cmd =>
      let manager := ExclusionManager.__init__ in
      match cmd with
      | CmdList => Some (0, fs)                   (* manager.show_status() *)
      | CmdCleanup =>
          Some (0, (cleanup_expired manager current_time disk fs).2)
      | CmdPause =>
          if negb (Py.truthy_str (instance_id args))
             || negb (Py.truthy_str (node_name args))
          then Some (1, fs)
          else
            let reason := or_str (reason args) "MANUAL_PAUSE" in
            Some (0, (pause_instance strftime manager
                        (default EmptyString (instance_id args))
                        (default EmptyString (node_name args))
                        reason None current_time disk fs).2)
      | CmdResume =>
          if negb (Py.truthy_str (instance_id args)) then Some (1, fs)
          else
            Some (0, (resume_instance manager
                        (default EmptyString (instance_id args)) disk fs).2)
      end
  end.

End MonitorCLI.

(** Names for the statements about one cycle. *)

Module Cycle.

Import ErrorHandlerDispatch DCGMMonitor.

(** The reports handed to the classifier. *)
Definition classified (tr : list Event) : list string :=
  omap (λ e, match e with ParseGpuMetricInfo m => Some m | _ => None end) tr.


(** The classifier gives nothing the monitor can act on: it raises, its
    answer is not a dict, or the dict lacks [error_class], or it names an
    unhealthy class and lacks [error_count]. *)
Definition classification_fails (r : LLMResult) : Prop :=
  match r with
  | LLMNotDict | LLMRaises _ => True
  | LLMDict d =>
      error_class d = None
      ∨ (error_class d ≠ Some "HEALTHY" ∧ error_count d = None)
  end.

(** The instance id [get_instance_id] returns for a node when [k]
    operations on the store have been made: the stripped output of the
    shell function if it succeeds and prints something, the node name
    otherwise. *)
Definition instance_of (env : Env) (k : nat) (node_name : string) : string :=
  match shell_get_instance_id env k node_name with
  | Some output =>
      if PyText.truthy output then PyText.strip output else node_name
  | None => node_name
  end.

(** What [should_monitor] answers in world [w] for the instance of a
    node. *)
Definition answer (env : Env) (self : DCGMMonitor.t) (node_name : string)
    (w : World) : (bool * option string) * ExclusionManager.FileState :=
  ExclusionManager.should_monitor (exclusion_manager self)
    (instance_of env (store_ops w) node_name) node_name
    (now env (store_ops w)) (disk env (store_ops w)) (file w).

(** Summing a weight over a trace. *)
Definition weight (μ : Event → nat) (tr : list Event) : nat :=
  sum_list (μ <$> tr).

(** A computation that appends events of total weight at most [n]. *)
Definition adds (μ : Event → nat) (n : nat) {A} (c : M A) : Prop :=
  ∀ w, ∃ tl, trace (c w).2 = trace w ++ tl ∧ (weight μ tl ≤ n)%nat.

Definition remediation_weight (e : Event) : nat :=
  match e with
  | Dispatched r => if is_remediation r then 1 else 0
  | _ => 0
  end.

Definition metric_weight (e : Event) : nat :=
  match e with
  | Dispatched r => if is_metric r then 1 else 0
  | _ => 0
  end.

End Cycle.

(** * Properties of the store *)

Section StoreFacts.

Import ExclusionManager.

Variable self : ExclusionManager.t.
Variable current_time : Z.

Implicit Types (exclusions : gmap string ExclusionInfo) (fs : FileState).
Implicit Types (disk : WriteOutcome).

Lemma elem_of_expired_instances exclusions i :
  i ∈ expired_instances self current_time exclusions ↔
  ∃ info, exclusions !! i = Some info ∧ expired self current_time info = true.
Proof.
  unfold expired_instances. rewrite list_elem_of_fmap. split.
  - intros [[j info] [-> Hin]]. apply list_elem_of_filter in Hin as [Hexp Hin].
    apply elem_of_map_to_list in Hin. by exists info.
  - intros (info & Hlook & Hexp). exists (i, info). split; [done|].
    apply list_elem_of_filter. split; [done|]. by apply elem_of_map_to_list.
Qed.

Lemma lookup_swept exclusions i info :
  swept self current_time exclusions !! i = Some info ↔
  exclusions !! i = Some info ∧ expired self current_time info = false.
Proof.
  unfold swept. rewrite lookup_foldr_delete_Some, elem_of_expired_instances.
  split.
  - intros [Hno Hlook]. split; [done|].
    destruct (expired self current_time info) eqn:Hexp; [|done].
    destruct Hno. by exists info.
  - intros [Hlook Hexp]. split; [|done].
    intros (info' & Hlook' & Hexp'). congruence.
Qed.

Lemma swept_subseteq exclusions : swept self current_time exclusions ⊆ exclusions.
Proof.
  apply map_subseteq_spec. intros i info Hs. by apply lookup_swept in Hs as [? _].
Qed.


Lemma expired_instances_empty : expired_instances self current_time ∅ = [].
Proof. unfold expired_instances. by rewrite map_to_list_empty. Qed.

(** [cleanup_expired] in terms of the keys it collects and the map it
    keeps. *)
Lemma cleanup_expired_unfold disk fs :
  cleanup_expired self current_time disk fs =
  match expired_instances self current_time (_load_exclusions fs) with
  | [] => (0%nat, fs)
  | ids =>
      (length ids,
       (_save_exclusions (swept self current_time (_load_exclusions fs))
          disk fs).2)
  end.
Proof.
  unfold cleanup_expired, swept.
  by destruct (expired_instances _ _ _).
Qed.


Lemma cleanup_expired_subseteq disk fs :
  _load_exclusions (cleanup_expired self current_time disk fs).2
    ⊆ _load_exclusions fs.
Proof.
  rewrite cleanup_expired_unfold.
  destruct (expired_instances _ _ (_load_exclusions fs)); [done|].
  destruct disk; simpl; [apply swept_subseteq | done | apply map_empty_subseteq].
Qed.

Lemma should_monitor_unfold instance_id node disk fs :
  should_monitor self instance_id node current_time disk fs =
  let fs' := (cleanup_expired self current_time disk fs).2 in
  match _load_exclusions fs' !! instance_id with
  | Some info =>
      if truthy info then (false, Some (skip_reason info), fs')
      else (true, None, fs')
  | None => (true, None, fs')
  end.
Proof.
  unfold should_monitor, is_excluded, get_exclusion_info. simpl.
  destruct (_load_exclusions _ !! instance_id) eqn:Hlook.
  - rewrite bool_decide_eq_true_2 by eauto. done.
  - rewrite bool_decide_eq_false_2; [done|]. by intros [? ?].
Qed.

Lemma should_monitor_file instance_id node disk fs :
  (should_monitor self instance_id node current_time disk fs).2
  = (cleanup_expired self current_time disk fs).2.
Proof.
  rewrite should_monitor_unfold. cbv zeta.
  destruct (_ !! instance_id) as [info|]; [destruct (truthy info)|]; done.
Qed.

End StoreFacts.

Section StoreClaims.

Import ExclusionManager.

Variable strftime : Z → string.
Variable self : ExclusionManager.t.

Implicit Types (fs : FileState) (disk : WriteOutcome).

Lemma add_exclusion_present instance_id node error timeout current_time disk fs :
  is_Some (_load_exclusions fs !! instance_id) →
  add_exclusion strftime self instance_id node error timeout
    current_time disk fs = (false, fs).
Proof. intros [info Hinfo]. unfold add_exclusion. by rewrite Hinfo. Qed.

Lemma add_exclusion_absent instance_id node error timeout current_time disk fs :
  _load_exclusions fs !! instance_id = None →
  add_exclusion strftime self instance_id node error timeout
    current_time disk fs =
  _save_exclusions
    (<[instance_id := new_record strftime self node error timeout current_time]>
       (_load_exclusions fs)) disk fs.
Proof.
  intros Hnone. unfold add_exclusion. rewrite Hnone. by destruct disk.
Qed.

(** C3 (amended): [add_exclusion] refuses exactly the identifiers that
    have a record in the store, expired or not -- it never looks at
    expiry.  With a record present it returns [False] and leaves the file
    as it is; with none, and the write succeeding, it returns [True] and
    the file holds the loaded map plus a record whose [start_time] is the
    current time.  It returns [False] only for a record present or a write
    that failed. *)
Theorem add_exclusion_refuses_iff_present instance_id node error timeout
    current_time disk fs :
  let r := add_exclusion strftime self instance_id node error timeout
             current_time disk fs in
  (is_Some (_load_exclusions fs !! instance_id) → r = (false, fs))
  ∧ (_load_exclusions fs !! instance_id = None → disk = WriteOk →
     r = (true,
          FileJson (<[instance_id :=
                        new_record strftime self node error timeout current_time]>
                      (_load_exclusions fs)))
     ∧ start_time (new_record strftime self node error timeout current_time)
       = Some current_time)
  ∧ (disk = WriteOk →
     (r.1 = false ∧ r.2 = fs) ↔ is_Some (_load_exclusions fs !! instance_id))
  ∧ (r.1 = false ↔
     is_Some (_load_exclusions fs !! instance_id) ∨ disk ≠ WriteOk).
Proof.
  intros r. subst r. split; [apply add_exclusion_present|]. split; [|split].
  - intros Hnone ->. by rewrite add_exclusion_absent.
  - intros ->. split.
    + intros [Hfalse _].
      destruct (_load_exclusions fs !! instance_id) eqn:Hlook; [done|].
      rewrite add_exclusion_absent in Hfalse by done. discriminate.
    + intros Hsome. by rewrite add_exclusion_present.
  - destruct (_load_exclusions fs !! instance_id) eqn:Hlook.
    + rewrite add_exclusion_present by (rewrite Hlook; eauto).
      split; [intros _; left; eauto | done].
    + rewrite add_exclusion_absent by done. split.
      * intros Hfalse. right. by intros ->.
      * intros [[? ?]|Hdisk]; [done|]. by destruct disk.
Qed.

(** C4: a second [add_exclusion] for an identifier that has a record
    returns [False] and leaves the file -- hence the record, with its
    [start_time] and [timeout] -- exactly as it was. *)
Theorem add_exclusion_keeps_existing instance_id node error timeout
    current_time disk fs info :
  _load_exclusions fs !! instance_id = Some info →
  let r := add_exclusion strftime self instance_id node error timeout
             current_time disk fs in
  r.1 = false ∧ r.2 = fs ∧
  ∃ info', _load_exclusions r.2 !! instance_id = Some info'
           ∧ start_time info' = start_time info
           ∧ ExclusionManager.timeout info' = ExclusionManager.timeout info.
Proof.
  intros Hinfo r. subst r. rewrite add_exclusion_present by eauto.
  split; [done|]. split; [done|]. by exists info.
Qed.



(** C10: with the [timeout] argument omitted or 0, the record that
    [add_exclusion] -- and [pause_instance], which only forwards -- stores
    carries the manager's [default_timeout], 1800 s for a manager built
    with the defaults; such a record is not expired at its own creation
    time. *)
Theorem add_exclusion_default_timeout instance_id node reason timeout
    current_time fs :
  timeout = None ∨ timeout = Some 0 →
  _load_exclusions fs !! instance_id = None →
  let added := add_exclusion strftime self instance_id node reason
                 timeout current_time WriteOk fs in
  let paused := pause_instance strftime self instance_id node reason
                  timeout current_time WriteOk fs in
  ∃ info,
    added = (true, FileJson (<[instance_id := info]> (_load_exclusions fs)))
    ∧ paused = added
    ∧ ExclusionManager.timeout info = Some (default_timeout self)
    ∧ start_time info = Some current_time
    ∧ (0 ≤ default_timeout self → expired self current_time info = false)
    ∧ default_timeout ExclusionManager.__init__ = 1800.
Proof.
  intros Htimeout Hnone added paused. subst paused added.
  unfold pause_instance. rewrite add_exclusion_absent by done. simpl.
  exists (new_record strftime self node reason timeout current_time).
  repeat split.
  - by destruct Htimeout as [-> | ->].
  - intros Hpos. unfold expired. simpl. apply Z.ltb_ge.
    destruct Htimeout as [-> | ->]; simpl; lia.
Qed.

Lemma add_exclusion_agree instance_id node error timeout current_time disk
    fs1 fs2 :
  _load_exclusions fs1 = _load_exclusions fs2 →
  agree (add_exclusion strftime self instance_id node error timeout
           current_time disk fs1)
        (add_exclusion strftime self instance_id node error timeout
           current_time disk fs2).
Proof.
  intros Hload. unfold add_exclusion. rewrite Hload.
  destruct (_load_exclusions fs2 !! instance_id); [done|].
  by destruct disk.
Qed.

Lemma remove_exclusion_agree instance_id disk fs1 fs2 :
  _load_exclusions fs1 = _load_exclusions fs2 →
  agree (remove_exclusion self instance_id disk fs1)
        (remove_exclusion self instance_id disk fs2).
Proof.
  intros Hload. unfold remove_exclusion. rewrite Hload.
  destruct (_load_exclusions fs2 !! instance_id); [|done].
  by destruct disk.
Qed.

Lemma cleanup_expired_agree current_time disk fs1 fs2 :
  _load_exclusions fs1 = _load_exclusions fs2 →
  agree (cleanup_expired self current_time disk fs1)
        (cleanup_expired self current_time disk fs2).
Proof.
  intros Hload. rewrite !cleanup_expired_unfold, Hload.
  destruct (expired_instances _ _ _); [done|]. by destruct disk.
Qed.

Lemma should_monitor_agree instance_id node current_time disk fs1 fs2 :
  _load_exclusions fs1 = _load_exclusions fs2 →
  agree (should_monitor self instance_id node current_time disk fs1)
        (should_monitor self instance_id node current_time disk fs2).
Proof.
  intros Hload. rewrite !should_monitor_unfold. cbv zeta.
  destruct (cleanup_expired_agree current_time disk fs1 fs2 Hload) as [_ Hswept].
  unfold agree. rewrite Hswept.
  destruct (_ !! instance_id) as [info|]; [destruct (truthy info)|]; done.
Qed.

(** X23: on the failures that the code catches.  A failed read -- file
    missing, [IOError], or [JSONDecodeError] --
    makes [_load_exclusions] return the empty map, and every operation
    then returns what it returns on an empty store and leaves a file that
    loads to the same map; a failed write makes [add_exclusion],
    [remove_exclusion] and their manual forms return [False]. *)
Theorem persistence_failures fs :
  (fs = FileMissing ∨ fs = FileUnreadable ∨ fs = FileMalformed →
   _load_exclusions fs = ∅
   ∧ (∀ instance_id,
       is_excluded self instance_id fs = is_excluded self instance_id (FileJson ∅)
       ∧ get_exclusion_info self instance_id fs
         = get_exclusion_info self instance_id (FileJson ∅))
   ∧ (∀ instance_id node error timeout current_time disk,
       agree (add_exclusion strftime self instance_id node error
                timeout current_time disk fs)
             (add_exclusion strftime self instance_id node error
                timeout current_time disk (FileJson ∅)))
   ∧ (∀ instance_id disk,
       agree (remove_exclusion self instance_id disk fs)
             (remove_exclusion self instance_id disk (FileJson ∅)))
   ∧ (∀ current_time disk,
       agree (cleanup_expired self current_time disk fs)
             (cleanup_expired self current_time disk (FileJson ∅)))
   ∧ (∀ instance_id node current_time disk,
       agree (should_monitor self instance_id node current_time disk fs)
             (should_monitor self instance_id node current_time disk
                (FileJson ∅))
       ∧ (should_monitor self instance_id node current_time disk fs).1
         = (true, None)))
  ∧ (∀ disk instance_id node error timeout current_time,
      disk ≠ WriteOk →
      (add_exclusion strftime self instance_id node error timeout
         current_time disk fs).1 = false
      ∧ (pause_instance strftime self instance_id node error timeout
           current_time disk fs).1 = false
      ∧ (remove_exclusion self instance_id disk fs).1 = false
      ∧ (resume_instance self instance_id disk fs).1 = false).
Proof.
  split.
  - intros Hfail.
    assert (Hload : _load_exclusions fs = _load_exclusions (FileJson ∅))
      by (by destruct Hfail as [-> | [-> | ->]]).
    split; [done|]. split; [|split; [|split; [|split]]].
    + intros instance_id. unfold is_excluded, get_exclusion_info.
      by rewrite Hload.
    + intros. by apply add_exclusion_agree.
    + intros. by apply remove_exclusion_agree.
    + intros. by apply cleanup_expired_agree.
    + intros instance_id node current_time disk.
      split; [by apply should_monitor_agree|].
      destruct (should_monitor_agree instance_id node current_time disk
                  fs (FileJson ∅) Hload) as [-> _].
      rewrite should_monitor_unfold, cleanup_expired_unfold. simpl.
      rewrite expired_instances_empty. simpl. by rewrite lookup_empty.
  - intros disk instance_id node error timeout current_time Hdisk.
    unfold pause_instance, resume_instance, add_exclusion, remove_exclusion.
    destruct (_load_exclusions fs !! instance_id); by destruct disk.
Qed.


(** C9 (the code departs from it): a store file whose bytes are not UTF-8
    makes [_load_exclusions] raise -- [UnicodeDecodeError] is not among
    [except (json.JSONDecodeError, IOError)] -- and with it
    [add_exclusion] and [remove_exclusion], whatever the write would do;
    and a write that fails with [UnicodeEncodeError] passes
    [except IOError], so that [add_exclusion] and [remove_exclusion] raise
    instead of returning [False]. *)
Theorem undecodable_file_raises :
  ExclusionFile._load_exclusions
    (ExclusionFile.ReadRaises ExclusionFile.UnicodeDecodeError)
  = ExclusionFile.Raise ExclusionFile.UnicodeDecodeError
  ∧ (∀ instance_id write,
      ExclusionFile.add_exclusion instance_id
        (ExclusionFile.ReadRaises ExclusionFile.UnicodeDecodeError) write
      = ExclusionFile.Raise ExclusionFile.UnicodeDecodeError
      ∧ ExclusionFile.remove_exclusion instance_id
          (ExclusionFile.ReadRaises ExclusionFile.UnicodeDecodeError) write
        = ExclusionFile.Raise ExclusionFile.UnicodeDecodeError)
  ∧ (∀ instance_id,
      ExclusionFile.add_exclusion instance_id ExclusionFile.NoFile
        (ExclusionFile.WriteRaises ExclusionFile.UnicodeEncodeError)
      = ExclusionFile.Raise ExclusionFile.UnicodeEncodeError)
  ∧ (∀ instance_id info,
      ExclusionFile.remove_exclusion instance_id
        (ExclusionFile.ReadJson {[ instance_id := info ]})
        (ExclusionFile.WriteRaises ExclusionFile.UnicodeEncodeError)
      = ExclusionFile.Raise ExclusionFile.UnicodeEncodeError).
Proof.
  split; [done|]. split; [done|]. split; [done|].
  intros instance_id info. unfold ExclusionFile.remove_exclusion.
  cbn [ExclusionFile._load_exclusions]. by rewrite lookup_singleton_eq.
Qed.

End StoreClaims.

(** * Properties of the monitor *)

Section MonitorFacts.

Import ExclusionManager ErrorHandlerDispatch DCGMMonitor.

Variable env : Env.
Variable self : DCGMMonitor.t.

Implicit Types (w : World) (tr : list Event).

Ltac run_monad :=
  unfold mbind, M_bind, emit, shell, store_op, mret, M_ret, raise;
  cbn beta iota zeta delta [fst snd file trace store_ops].

Lemma requests_app tr1 tr2 : requests (tr1 ++ tr2) = requests tr1 ++ requests tr2.
Proof. apply omap_app. Qed.

Lemma evaluated_app tr1 tr2 :
  evaluated (tr1 ++ tr2) = evaluated tr1 ++ evaluated tr2.
Proof. apply omap_app. Qed.

Lemma str_ne_healthy error_class :
  error_class ≠ "HEALTHY" → Py.str_ne "HEALTHY" error_class = true.
Proof.
  intros Hne. unfold Py.str_ne. apply negb_true_iff, String.eqb_neq. congruence.
Qed.

Lemma urgency_not_healthy error_class :
  SNSHandler._get_urgency_level error_class ≠ SNSHandler.INFO →
  error_class ≠ "HEALTHY".
Proof. intros Hurgency ->. by apply Hurgency. Qed.

(** What the policy does with a well-formed, non-healthy descriptor. *)
Lemma handle_gpu_error_unhealthy error_class error_count error_gpu_id
    node instance_id w :
  error_class ≠ "HEALTHY" →
  handle_gpu_error env self
    {| DCGMMonitor.error_class := Some error_class;
       DCGMMonitor.error_count := Some error_count;
       DCGMMonitor.error_gpu_id := error_gpu_id |} node instance_id w =
  let metric :=
    Dispatched (send_cloudwatch_metrics error_class error_count node
                  instance_id) in
  (Returns (),
   if Py.contains "XID" error_class then
     if 5 <? error_count then
       {| file := file_after_add env self w instance_id node error_class 900;
          trace := trace w ++
                   [metric; Dispatched (call_replace_script node instance_id 900)];
          store_ops := S (store_ops w) |}
     else
       {| file := file_after_add env self w instance_id node error_class 200;
          trace := trace w ++
                   [metric;
                    Dispatched (call_reboot_script node instance_id 30 true)];
          store_ops := S (store_ops w) |}
   else
     {| file := file w; trace := trace w ++ [metric];
        store_ops := store_ops w |}).
Proof.
  intros Hne. unfold handle_gpu_error, file_after_add.
  unfold mbind, M_bind, getitem, mret, M_ret, emit, store_op.
  cbn beta iota delta [DCGMMonitor.error_class DCGMMonitor.error_count].
  rewrite (str_ne_healthy _ Hne). cbn [file trace store_ops fst snd].
  destruct (Py.contains "XID" error_class); cbn [andb].
  - destruct (5 <? error_count) eqn:Hcount.
    + cbn [file trace store_ops]. by rewrite <- app_assoc.
    + assert ((error_count <=? 5) = true) as -> by lia.
      cbn [file trace store_ops]. by rewrite <- app_assoc.
  - done.
Qed.

Lemma handle_gpu_error_healthy error_count error_gpu_id node instance_id w :
  handle_gpu_error env self
    {| DCGMMonitor.error_class := Some "HEALTHY";
       DCGMMonitor.error_count := Some error_count;
       DCGMMonitor.error_gpu_id := error_gpu_id |} node instance_id w =
  (Returns (), w).
Proof. reflexivity. Qed.

(** A fresh [add_exclusion] from the policy stores a record that starts
    now and lasts for the timeout the policy chose. *)
Lemma file_after_add_fresh w instance_id node error_class timeout :
  _load_exclusions (file w) !! instance_id = None →
  disk env (store_ops w) = WriteOk →
  timeout ≠ 0 →
  ∃ info,
    _load_exclusions (file_after_add env self w instance_id node error_class timeout)
      !! instance_id = Some info
    ∧ start_time info = Some (now env (store_ops w))
    ∧ ExclusionManager.timeout info = Some timeout.
Proof.
  intros Hnone Hdisk Htimeout. unfold file_after_add.
  rewrite add_exclusion_absent, Hdisk by done. simpl.
  rewrite lookup_insert_eq. eexists. split; [done|]. split; [done|].
  simpl. by destruct timeout.
Qed.

Lemma quiet_ret {A} (a : A) : quiet (mret a).
Proof. intros w. exists []. by rewrite app_nil_r. Qed.

Lemma quiet_raise {A} e : quiet (@raise A e).
Proof. intros w. exists []. by rewrite app_nil_r. Qed.

Lemma quiet_bind {A B} (c : M A) (k : A → M B) :
  quiet c → (∀ a, quiet (k a)) → quiet (c ≫= k).
Proof.
  intros Hc Hk w. unfold mbind, M_bind.
  destruct (Hc w) as (tl1 & Htl1 & Hq1).
  destruct (c w) as [[a|e] w1]; simpl in *.
  - destruct (Hk a w1) as (tl2 & Htl2 & Hq2).
    exists (tl1 ++ tl2). rewrite Htl2, Htl1, evaluated_app, Hq1, Hq2.
    by rewrite app_assoc.
  - by exists tl1.
Qed.

Lemma quiet_emit e :
  (∀ n, e ≠ GetInstanceId n) → quiet (emit e).
Proof.
  intros He w. exists [e]. split; [done|].
  destruct e as [n| | | |]; try done. by destruct (He n).
Qed.

Lemma quiet_store_op {A} (op : Z → WriteOutcome → FileState → A * FileState) :
  quiet (store_op env op).
Proof. intros w. exists []. by rewrite app_nil_r. Qed.

Lemma quiet_getitem {A} key (field : option A) : quiet (getitem key field).
Proof. destruct field; [apply quiet_ret | apply quiet_raise]. Qed.

Lemma quiet_handle_gpu_error parsed_error node instance_id :
  quiet (handle_gpu_error env self parsed_error node instance_id).
Proof.
  unfold handle_gpu_error.
  apply quiet_bind; [apply quiet_getitem|]. intros error_class.
  apply quiet_bind; [apply quiet_getitem|]. intros error_count.
  apply quiet_bind.
  { destruct (Py.str_ne _ _); [by apply quiet_emit | apply quiet_ret]. }
  intros _.
  destruct (_ && _); [|destruct (_ && _); [|apply quiet_ret]];
    (apply quiet_bind; [apply quiet_store_op | intros _; by apply quiet_emit]).
Qed.

(** [get_instance_id] returns, without raising, the stripped output of
    the shell function or the node name. *)
Lemma get_instance_id_run node w :
  get_instance_id env node w
  = (Returns (Cycle.instance_of env (store_ops w) node),
     {| file := file w; trace := trace w ++ [GetInstanceId node];
        store_ops := store_ops w |}).
Proof.
  unfold get_instance_id, Cycle.instance_of. run_monad.
  destruct (shell_get_instance_id env (store_ops w) node) as [output|];
    [by destruct (PyText.truthy output) | done].
Qed.

(** Every call of [monitor_single_node] asks for the instance id of its
    node, once, whatever happens next. *)
Lemma monitor_single_node_evaluated pod node w :
  evaluated (trace (monitor_single_node env self pod node w).2)
  = evaluated (trace w) ++ [node].
Proof.
  unfold monitor_single_node.
  set (k := λ instance_id : string, _ : M bool).
  assert (Hk : ∀ i, quiet (k i)).
  { intros i. unfold k.
    apply quiet_bind; [apply quiet_store_op|]. intros [should reason].
    destruct (negb should); [apply quiet_ret|].
    apply quiet_bind.
    { unfold query_dcgm_metrics.
      apply quiet_bind; [by apply quiet_emit | intros _; apply quiet_ret]. }
    intros metrics. destruct (negb _); [apply quiet_ret|].
    apply quiet_bind.
    { unfold process_metrics_llm.
      apply quiet_bind; [by apply quiet_emit|]. intros _.
      destruct (parse_gpu_metric_info _ _);
        [apply quiet_ret | apply quiet_raise | apply quiet_raise]. }
    intros error_detail.
    apply quiet_bind; [apply quiet_getitem|]. intros error_class.
    apply quiet_bind; [|intros _; apply quiet_ret].
    destruct (Py.str_ne _ _); [apply quiet_handle_gpu_error | apply quiet_ret]. }
  unfold mbind at 1. unfold M_bind. rewrite get_instance_id_run.
  destruct (Hk (Cycle.instance_of env (store_ops w) node)
               {| file := file w;
                  trace := trace w ++ [GetInstanceId node];
                  store_ops := store_ops w |}) as (tl & -> & Hq).
  cbn [trace]. rewrite !evaluated_app, Hq, app_nil_r. reflexivity.
Qed.

Lemma guarded_run pod node w :
  guarded env self pod node w =
  match monitor_single_node env self pod node w with
  | (Returns _, w1) => (Returns (), w1)
  | (Raises e, w1) => (Returns (), logged_in w1 node e)
  end.
Proof.
  unfold guarded, try_except, mbind, M_bind.
  by destruct (monitor_single_node _ _ _ _ _) as [[b|e] w1].
Qed.

Lemma monitor_each_cons pod node rest w :
  monitor_each env self ((pod, node) :: rest) w =
  monitor_each env self rest (guarded env self pod node w).2.
Proof.
  cbn [monitor_each]. fold (guarded env self pod node).
  unfold mbind at 1. unfold M_bind. rewrite guarded_run.
  by destruct (monitor_single_node _ _ _ _ _) as [[b|e] w1].
Qed.

Lemma monitor_each_completes pods_info w :
  ∃ w', monitor_each env self pods_info w = (Returns (), w')
        ∧ evaluated (trace w') = evaluated (trace w) ++ pods_info.*2.
Proof.
  revert w. induction pods_info as [|[pod node] rest IH]; intros w.
  - exists w. by rewrite app_nil_r.
  - rewrite monitor_each_cons.
    destruct (IH (guarded env self pod node w).2) as (w' & Hrun & Hev).
    exists w'. split; [done|]. rewrite Hev, guarded_run.
    pose proof (monitor_single_node_evaluated pod node w) as Hone.
    destruct (monitor_single_node _ _ _ _ _) as [[b|e] w1]; simpl in *.
    + rewrite Hone. by rewrite <- app_assoc.
    + rewrite evaluated_app, Hone. simpl. by rewrite app_nil_r, <- app_assoc.
Qed.

(** C1 (amended): for a class of the WARNING tier the policy sends one
    metric, and what else it does depends on whether the class name
    contains "XID" and on the count, not on the tier: with "XID" and a
    count of at most 5, a reboot request and an [add_exclusion] for 200 s;
    with "XID" and a count above 5, a replacement request and an
    [add_exclusion] for 900 s; without "XID" (GPU_HEALTH_WARNING), nothing
    but the metric. *)
Theorem warning_tier_policy error_class error_count error_gpu_id
    node instance_id w :
  SNSHandler._get_urgency_level error_class = SNSHandler.WARNING →
  ∃ w' rest,
    handle_gpu_error env self
      {| DCGMMonitor.error_class := Some error_class;
         DCGMMonitor.error_count := Some error_count;
         DCGMMonitor.error_gpu_id := error_gpu_id |} node instance_id w
    = (Returns (), w')
    ∧ requests (trace w') = requests (trace w) ++
        send_cloudwatch_metrics error_class error_count node instance_id :: rest
    ∧ filter is_metric rest = []
    ∧ (Py.contains "XID" error_class = true → error_count ≤ 5 →
       rest = [call_reboot_script node instance_id 30 true]
       ∧ file w' = file_after_add env self w instance_id node error_class 200
       ∧ (_load_exclusions (file w) !! instance_id = None →
          disk env (store_ops w) = WriteOk →
          ∃ info, _load_exclusions (file w') !! instance_id = Some info
                  ∧ start_time info = Some (now env (store_ops w))
                  ∧ ExclusionManager.timeout info = Some 200))
    ∧ (Py.contains "XID" error_class = true → 5 < error_count →
       rest = [call_replace_script node instance_id 900]
       ∧ file w' = file_after_add env self w instance_id node error_class 900)
    ∧ (Py.contains "XID" error_class = false →
       rest = [] ∧ file w' = file w).
Proof.
  intros Htier.
  assert (Hne : error_class ≠ "HEALTHY")
    by (apply urgency_not_healthy; by rewrite Htier).
  rewrite handle_gpu_error_unhealthy by done. cbv zeta.
  destruct (Py.contains "XID" error_class);
    [destruct (5 <? error_count) eqn:Hcount|];
    eexists _, _; (split; [reflexivity|]); cbn [trace file];
    rewrite requests_app; (split; [reflexivity|]);
    repeat split; try done; try lia;
    intros; by apply file_after_add_fresh.
Qed.

(** C2 (amended): for a class of the CRITICAL tier the policy sends one
    metric; when the class name contains "XID" (the XID_CRITICAL classes)
    a count above 5 brings a replacement request and an [add_exclusion]
    for 900 s, a count of at most 5 a reboot request and an
    [add_exclusion] for 200 s; a critical class without "XID" (ECC_ERROR,
    GPU_HEALTH_ERROR) gets neither remediation nor suppression. *)
Theorem critical_tier_policy error_class error_count error_gpu_id
    node instance_id w :
  SNSHandler._get_urgency_level error_class = SNSHandler.CRITICAL →
  ∃ w' rest,
    handle_gpu_error env self
      {| DCGMMonitor.error_class := Some error_class;
         DCGMMonitor.error_count := Some error_count;
         DCGMMonitor.error_gpu_id := error_gpu_id |} node instance_id w
    = (Returns (), w')
    ∧ requests (trace w') = requests (trace w) ++
        send_cloudwatch_metrics error_class error_count node instance_id :: rest
    ∧ filter is_metric rest = []
    ∧ (Py.contains "XID" error_class = true → 5 < error_count →
       rest = [call_replace_script node instance_id 900]
       ∧ file w' = file_after_add env self w instance_id node error_class 900
       ∧ (_load_exclusions (file w) !! instance_id = None →
          disk env (store_ops w) = WriteOk →
          ∃ info, _load_exclusions (file w') !! instance_id = Some info
                  ∧ start_time info = Some (now env (store_ops w))
                  ∧ ExclusionManager.timeout info = Some 900))
    ∧ (Py.contains "XID" error_class = true → error_count ≤ 5 →
       rest = [call_reboot_script node instance_id 30 true]
       ∧ file w' = file_after_add env self w instance_id node error_class 200
       ∧ (_load_exclusions (file w) !! instance_id = None →
          disk env (store_ops w) = WriteOk →
          ∃ info, _load_exclusions (file w') !! instance_id = Some info
                  ∧ start_time info = Some (now env (store_ops w))
                  ∧ ExclusionManager.timeout info = Some 200))
    ∧ (Py.contains "XID" error_class = false →
       rest = [] ∧ file w' = file w).
Proof.
  intros Htier.
  assert (Hne : error_class ≠ "HEALTHY")
    by (apply urgency_not_healthy; by rewrite Htier).
  rewrite handle_gpu_error_unhealthy by done. cbv zeta.
  destruct (Py.contains "XID" error_class);
    [destruct (5 <? error_count) eqn:Hcount|];
    eexists _, _; (split; [reflexivity|]); cbn [trace file];
    rewrite requests_app; (split; [reflexivity|]);
    repeat split; try done; try lia;
    intros; by apply file_after_add_fresh.
Qed.

(** C7: a HEALTHY classification leads to no action.  The policy itself,
    given a HEALTHY descriptor, returns without a request and without
    touching the store; and [monitor_single_node], for a node whose report
    is classified HEALTHY, never reaches the policy: it dispatches no
    metric and no remediation, and every record in the store afterwards
    was there before (the sweep of [should_monitor] only removes). *)
Theorem healthy_takes_no_action pod node w :
  (∀ error_count error_gpu_id instance_id,
      handle_gpu_error env self
        {| DCGMMonitor.error_class := Some "HEALTHY";
           DCGMMonitor.error_count := Some error_count;
           DCGMMonitor.error_gpu_id := error_gpu_id |} node instance_id w
      = (Returns (), w))
  ∧ (∀ metrics parsed_error,
      shell_query_dcgm_metrics env pod node = Some metrics →
      parse_gpu_metric_info env metrics = LLMDict parsed_error →
      DCGMMonitor.error_class parsed_error = Some "HEALTHY" →
      ∃ result w',
        monitor_single_node env self pod node w = (Returns result, w')
        ∧ requests (trace w') = requests (trace w)
        ∧ _load_exclusions (file w') ⊆ _load_exclusions (file w)).
Proof.
  split; [intros; apply handle_gpu_error_healthy|].
  intros metrics parsed_error Hquery Hparse Hclass.
  assert (Hsub : ∀ i,
    _load_exclusions
      (should_monitor (exclusion_manager self) i node
         (now env (store_ops w)) (disk env (store_ops w)) (file w)).2
      ⊆ _load_exclusions (file w)).
  { intros. rewrite should_monitor_file. apply cleanup_expired_subseteq. }
  specialize (Hsub (Cycle.instance_of env (store_ops w) node)).
  unfold monitor_single_node, query_dcgm_metrics, process_metrics_llm.
  unfold mbind at 1. unfold M_bind at 1. rewrite get_instance_id_run.
  run_monad;
    (destruct (should_monitor _ _ _ _ _ _) as [[should reason] fs'];
     cbn [fst snd] in *; destruct should; cbn [negb];
     [ rewrite Hquery; unfold Py.truthy_str;
       destruct (String.eqb metrics EmptyString);
       cbn [negb default from_option id];
       [| rewrite Hparse; unfold getitem; rewrite Hclass; cbn ] |]);
    eexists _, _; (split; [reflexivity|]); cbn [trace file];
    rewrite !requests_app; cbn; by rewrite !app_nil_r.
Qed.

(** C8: [monitor_all_nodes] returns normally, having called
    [monitor_single_node] for every pair of the list, in order; when the
    evaluation of a resource raises, the handler of the loop logs the
    exception and the loop goes on with the rest of the list. *)
Theorem monitor_all_nodes_contains_failures w :
  (∃ w', monitor_all_nodes env self w = (Returns (), w')
         ∧ evaluated (trace w') = evaluated (trace w) ++ (pods_with_nodes env).*2)
  ∧ (∀ pod node rest e w1,
      monitor_single_node env self pod node w = (Raises e, w1) →
      monitor_each env self ((pod, node) :: rest) w =
      monitor_each env self rest (logged_in w1 node e)).
Proof.
  split.
  - unfold monitor_all_nodes.
    destruct (pods_with_nodes env) as [|pair rest] eqn:Hpods.
    + exists w. by rewrite app_nil_r.
    + apply monitor_each_completes.
  - intros pod node rest e w1 Hraise.
    by rewrite monitor_each_cons, guarded_run, Hraise.
Qed.

End MonitorFacts.

(** * The theorems at work on the concrete cycle, and the inputs on which
      the tier-based and expiry-based readings fail *)

Import ExclusionManager ErrorHandlerDispatch DCGMMonitor.

(** GPU_HEALTH_WARNING is of the WARNING tier, yet the policy only sends
    the metric: no reboot request, no record in the store. *)
Lemma warning_without_xid_only_notifies :
  SNSHandler._get_urgency_level "GPU_HEALTH_WARNING" = SNSHandler.WARNING
  ∧ handle_gpu_error Scenario.env Scenario.monitor
      (Scenario.descriptor "GPU_HEALTH_WARNING" 1) "node-1" "i-1" Scenario.start
    = (Returns (),
       {| file := FileMissing;
          trace := [Dispatched
                      (send_cloudwatch_metrics "GPU_HEALTH_WARNING" 1
                         "node-1" "i-1")];
          store_ops := 0 |}).
Proof. split; reflexivity. Qed.

Lemma warning_tier_policy_witness :
  ∃ w', handle_gpu_error Scenario.env Scenario.monitor
          (Scenario.descriptor "XID_WARNING_43" 2) "node-1" "i-1" Scenario.start
        = (Returns (), w')
        ∧ requests (trace w')
          = [send_cloudwatch_metrics "XID_WARNING_43" 2 "node-1" "i-1";
             call_reboot_script "node-1" "i-1" 30 true].
Proof.
  destruct (warning_tier_policy Scenario.env Scenario.monitor "XID_WARNING_43" 2 (Some 0)
              "node-1" "i-1" Scenario.start eq_refl)
    as (w' & rest & Hrun & Hreq & _ & Hlow & _).
  destruct (Hlow eq_refl ltac:(lia)) as (-> & _).
  exists w'. split; [exact Hrun | exact Hreq].
Defined.

(** ECC_ERROR is of the CRITICAL tier, yet seven occurrences bring no
    replacement request and no record in the store. *)
Lemma critical_without_xid_only_notifies :
  SNSHandler._get_urgency_level "ECC_ERROR" = SNSHandler.CRITICAL
  ∧ 5 < 7
  ∧ handle_gpu_error Scenario.env Scenario.monitor
      (Scenario.descriptor "ECC_ERROR" 7) "node-1" "i-1" Scenario.start
    = (Returns (),
       {| file := FileMissing;
          trace := [Dispatched
                      (send_cloudwatch_metrics "ECC_ERROR" 7 "node-1" "i-1")];
          store_ops := 0 |}).
Proof. split; [reflexivity|]. split; [lia | reflexivity]. Qed.

Lemma critical_tier_policy_witness :
  ∃ w', handle_gpu_error Scenario.env Scenario.monitor
          (Scenario.descriptor "XID_CRITICAL_79" 7) "node-1" "i-1" Scenario.start
        = (Returns (), w')
        ∧ requests (trace w')
          = [send_cloudwatch_metrics "XID_CRITICAL_79" 7 "node-1" "i-1";
             call_replace_script "node-1" "i-1" 900]
        ∧ ∃ info, _load_exclusions (file w') !! "i-1" = Some info
                  ∧ ExclusionManager.timeout info = Some 900.
Proof.
  destruct (critical_tier_policy Scenario.env Scenario.monitor "XID_CRITICAL_79" 7 (Some 0)
              "node-1" "i-1" Scenario.start eq_refl)
    as (w' & rest & Hrun & Hreq & _ & Hhigh & _).
  destruct (Hhigh eq_refl ltac:(lia)) as (-> & _ & Hrecord).
  destruct (Hrecord eq_refl eq_refl) as (info & Hinfo & _ & Htimeout).
  exists w'. split; [exact Hrun|]. split; [exact Hreq|].
  exists info. split; [exact Hinfo | exact Htimeout].
Defined.

(** The record of [i-1] expired long ago (written at 0 for 200 s, it is now
    1000), yet [add_exclusion] refuses and changes nothing: refusal does
    not need a record that is still running. *)
Lemma add_exclusion_refuses_expired_record :
  let fs := Scenario.one_record 200 in
  let r := add_exclusion Scenario.fmt Scenario.manager "i-1" "node-1" "XID_ERROR" (Some 900) 1000
             WriteOk fs in
  ¬ ((r.1 = false ∧ r.2 = fs) ↔
     ∃ info, _load_exclusions fs !! "i-1" = Some info
             ∧ expired Scenario.manager 1000 info = false).
Proof.
  intros fs r [Hclaim _].
  destruct Hclaim as (info & Hinfo & Hlive); [by split|].
  vm_compute in Hinfo. injection Hinfo as <-. discriminate Hlive.
Qed.

Lemma add_exclusion_refuses_iff_present_witness :
  add_exclusion Scenario.fmt Scenario.manager "i-1" "node-1" "XID_ERROR" (Some 900) 1000 WriteOk
    (Scenario.one_record 200) = (false, Scenario.one_record 200)
  ∧ (add_exclusion Scenario.fmt Scenario.manager "i-2" "node-2" "XID_ERROR" (Some 900) 1000 WriteOk
       (Scenario.one_record 200)).1 = true.
Proof.
  split.
  - apply (add_exclusion_refuses_iff_present Scenario.fmt Scenario.manager "i-1" "node-1" "XID_ERROR"
             (Some 900) 1000 WriteOk (Scenario.one_record 200)).
    vm_compute. eexists. reflexivity.
  - destruct (add_exclusion_refuses_iff_present Scenario.fmt Scenario.manager "i-2" "node-2"
                "XID_ERROR" (Some 900) 1000 WriteOk (Scenario.one_record 200))
      as (_ & Hfresh & _).
    destruct (Hfresh eq_refl eq_refl) as [-> _]. reflexivity.
Defined.

Lemma add_exclusion_keeps_existing_witness :
  (add_exclusion Scenario.fmt Scenario.manager "i-1" "node-1" "XID_ERROR" (Some 200) 500 WriteOk
     (Scenario.one_record 900)).2 = Scenario.one_record 900.
Proof.
  apply (add_exclusion_keeps_existing Scenario.fmt Scenario.manager "i-1" "node-1" "XID_ERROR"
           (Some 200) 500 WriteOk (Scenario.one_record 900)
           (new_record Scenario.fmt Scenario.manager "node-1" "CRITICAL_X" (Some 900) 0)).
  reflexivity.
Defined.





Lemma healthy_takes_no_action_witness :
  ∃ result w',
    monitor_single_node Scenario.env Scenario.monitor "dcgm-server-9xkq2" "node-4" Scenario.start
    = (Returns result, w')
    ∧ requests (trace w') = [].
Proof.
  destruct (healthy_takes_no_action Scenario.env Scenario.monitor "dcgm-server-9xkq2"
              "node-4" Scenario.start) as [_ Hnode].
  destruct (Hnode "report of node-4" (Scenario.descriptor "HEALTHY" 0)
              eq_refl eq_refl eq_refl) as (result & w' & Hrun & Hreq & _).
  exists result, w'. split; [exact Hrun | exact Hreq].
Defined.

Lemma monitor_all_nodes_contains_failures_witness :
  (∃ w', monitor_all_nodes Scenario.env Scenario.monitor Scenario.start = (Returns (), w')
         ∧ evaluated (trace w') = ["node-1"; "node-2"; "node-3"])
  ∧ monitor_each Scenario.env Scenario.monitor (pods_with_nodes Scenario.env) Scenario.start
    = monitor_each Scenario.env Scenario.monitor
        [("dcgm-server-8nk94", "node-2"); ("dcgm-server-zx5gc", "node-3")]
        {| file := FileMissing;
           trace := [GetInstanceId "node-1";
                     QueryDcgmMetrics "dcgm-server-2gttt" "node-1";
                     ParseGpuMetricInfo "report of node-1";
                     LoggedException "node-1"
                       (ValueError "LLM Result Parse Failed")];
           store_ops := 1 |}.
Proof.
  destruct (monitor_all_nodes_contains_failures Scenario.env Scenario.monitor Scenario.start)
    as [Hcycle Hstep].
  split; [exact Hcycle|].
  apply (Hstep "dcgm-server-2gttt" "node-1" _ (ValueError "LLM Result Parse Failed")
           {| file := FileMissing;
              trace := [GetInstanceId "node-1";
                        QueryDcgmMetrics "dcgm-server-2gttt" "node-1";
                        ParseGpuMetricInfo "report of node-1"];
              store_ops := 1 |}).
  reflexivity.
Defined.

Lemma persistence_failures_witness :
  _load_exclusions FileMalformed = ∅
  ∧ (add_exclusion Scenario.fmt Scenario.manager "i-1" "node-1" "XID_ERROR" (Some 900) 0
       WriteFailsAtOpen FileMalformed).1 = false.
Proof.
  destruct (persistence_failures Scenario.fmt Scenario.manager FileMalformed) as [Hread Hwrite].
  split.
  - apply Hread. right. right. reflexivity.
  - apply (Hwrite WriteFailsAtOpen "i-1" "node-1" "XID_ERROR" (Some 900) 0).
    discriminate.
Defined.

Lemma add_exclusion_default_timeout_witness :
  ∃ info,
    add_exclusion Scenario.fmt Scenario.manager "i-1" "node-1" "MANUAL_PAUSE" (Some 0) 0 WriteOk
      FileMissing = (true, FileJson (<[ "i-1" := info ]> ∅))
    ∧ ExclusionManager.timeout info = Some 1800.
Proof.
  destruct (add_exclusion_default_timeout Scenario.fmt Scenario.manager "i-1" "node-1" "MANUAL_PAUSE"
              (Some 0) 0 FileMissing (or_intror eq_refl) eq_refl)
    as (info & Hadded & _ & Htimeout & _).
  exists info. split; [exact Hadded | exact Htimeout].
Defined.

(** * Further properties of the store *)

Section StoreExtras.

Variable strftime : Z → string.
Variable self : ExclusionManager.t.

Implicit Types (fs : FileState) (disk : WriteOutcome).
Implicit Types (exclusions : gmap string ExclusionInfo).

Lemma swept_insert current_time exclusions i info :
  exclusions !! i = None →
  swept self current_time (<[i := info]> exclusions) =
  if expired self current_time info then swept self current_time exclusions
  else <[i := info]> (swept self current_time exclusions).
Proof.
  intros Hnone. apply map_eq. intros j. apply option_eq. intros info'.
  rewrite lookup_swept.
  destruct (expired self current_time info) eqn:Hexp.
  - rewrite lookup_swept. destruct (decide (i = j)) as [<- | Hne].
    + rewrite lookup_insert_eq, Hnone. split; [|by intros [? ?]].
      intros [[= <-] ?]. congruence.
    + by rewrite lookup_insert_ne.
  - destruct (decide (i = j)) as [<- | Hne].
    + rewrite !lookup_insert_eq. split; [by intros [? ?]|].
      intros [= <-]. done.
    + rewrite !lookup_insert_ne by done. by rewrite lookup_swept.
Qed.

Lemma expired_instances_insert current_time exclusions i info :
  exclusions !! i = None →
  length (expired_instances self current_time (<[i := info]> exclusions)) =
  ((if expired self current_time info then 1 else 0)
   + length (expired_instances self current_time exclusions))%nat.
Proof.
  intros Hnone. unfold expired_instances. rewrite !length_fmap.
  rewrite (map_to_list_insert _ _ _ Hnone), filter_cons. simpl.
  destruct (expired self current_time info); by case_decide.
Qed.

Lemma swept_count current_time exclusions :
  (length (expired_instances self current_time exclusions)
   + size (swept self current_time exclusions) = size exclusions)%nat.
Proof.
  induction exclusions as [|i info exclusions Hnone IH] using map_ind.
  - by rewrite expired_instances_empty.
  - rewrite expired_instances_insert, swept_insert by done.
    rewrite map_size_insert_None by done.
    destruct (expired self current_time info); [lia|].
    rewrite map_size_insert_None; [lia|].
    apply eq_None_not_Some. intros [x Hx].
    apply lookup_swept in Hx as [Hx _]. congruence.
Qed.

Lemma cleanup_expired_ok_load current_time fs :
  _load_exclusions (cleanup_expired self current_time WriteOk fs).2
  = swept self current_time (_load_exclusions fs).
Proof.
  rewrite cleanup_expired_unfold.
  destruct (expired_instances _ _ (_load_exclusions fs)) eqn:Hids; [|done].
  unfold swept. by rewrite Hids.
Qed.

(** A record that has not expired is still there after the sweep, unless
    the write of the sweep broke the file. *)
Lemma cleanup_expired_keeps_live current_time disk fs i info :
  _load_exclusions fs !! i = Some info →
  expired self current_time info = false →
  disk ≠ WriteFailsMidway →
  _load_exclusions (cleanup_expired self current_time disk fs).2 !! i = Some info.
Proof.
  intros Hinfo Hlive Hdisk. rewrite cleanup_expired_unfold.
  destruct (expired_instances _ _ (_load_exclusions fs)); [done|].
  destruct disk; simpl; [by apply lookup_swept | done | done].
Qed.

(** X1: [remove_exclusion] returns [True] exactly when the identifier has
    a record and the write succeeds; the file then holds no record for it
    and every other record as before.  Without a record it returns [False]
    and leaves the file alone. *)
Theorem remove_exclusion_removes_one instance_id disk fs :
  let r := remove_exclusion self instance_id disk fs in
  (_load_exclusions fs !! instance_id = None → r = (false, fs))
  ∧ (is_Some (_load_exclusions fs !! instance_id) → disk = WriteOk →
     r.1 = true
     ∧ _load_exclusions r.2 !! instance_id = None
     ∧ ∀ j, j ≠ instance_id →
            _load_exclusions r.2 !! j = _load_exclusions fs !! j)
  ∧ (r.1 = true ↔
     is_Some (_load_exclusions fs !! instance_id) ∧ disk = WriteOk).
Proof.
  intros r. subst r. unfold remove_exclusion.
  destruct (_load_exclusions fs !! instance_id) as [info|] eqn:Hlook.
  - split; [done|]. split.
    + intros _ ->. simpl. split; [done|]. split; [apply lookup_delete_eq|].
      intros j Hne. by apply lookup_delete_ne.
    + destruct disk; simpl; split; try done; by intros [_ ?].
  - split; [done|]. split; [by intros [? ?]|]. simpl.
    split; [done | by intros [[? ?] _]].
Qed.

(** X2: adding a record for a fresh identifier and removing it again,
    both writes succeeding, gives back the store that was loaded at the
    start; so do [pause_instance] and [resume_instance]. *)
Theorem add_then_remove_restores instance_id node error timeout current_time fs :
  _load_exclusions fs !! instance_id = None →
  let added := add_exclusion strftime self instance_id node error timeout
                 current_time WriteOk fs in
  let removed := remove_exclusion self instance_id WriteOk added.2 in
  let paused := pause_instance strftime self instance_id node error timeout
                  current_time WriteOk fs in
  let resumed := resume_instance self instance_id WriteOk paused.2 in
  added.1 = true ∧ removed.1 = true
  ∧ _load_exclusions removed.2 = _load_exclusions fs
  ∧ paused.1 = true ∧ resumed.1 = true
  ∧ _load_exclusions resumed.2 = _load_exclusions fs.
Proof.
  intros Hnone added removed paused resumed.
  subst resumed paused removed added.
  unfold pause_instance, resume_instance.
  rewrite add_exclusion_absent by done. simpl.
  unfold remove_exclusion. simpl. rewrite lookup_insert_eq. simpl.
  by rewrite delete_insert_id.
Qed.

(** X3: after a successful [add_exclusion] the identifier is excluded
    and [get_exclusion_info] returns the record just built, with the node
    name and error type given; what the store says of any other identifier
    is unchanged. *)
Theorem add_exclusion_then_lookup instance_id node error timeout current_time fs :
  _load_exclusions fs !! instance_id = None →
  let fs' := (add_exclusion strftime self instance_id node error timeout
                current_time WriteOk fs).2 in
  is_excluded self instance_id fs' = true
  ∧ (∃ info, get_exclusion_info self instance_id fs' = Some info
             ∧ node_name info = Some node
             ∧ error_type info = Some error
             ∧ start_time info = Some current_time
             ∧ ExclusionManager.timeout info
               = Some (Py.or_int timeout (default_timeout self)))
  ∧ ∀ j, j ≠ instance_id →
         is_excluded self j fs' = is_excluded self j fs
         ∧ get_exclusion_info self j fs' = get_exclusion_info self j fs.
Proof.
  intros Hnone fs'. subst fs'. rewrite add_exclusion_absent by done. simpl.
  unfold is_excluded, get_exclusion_info. simpl.
  rewrite lookup_insert_eq. split; [by apply bool_decide_eq_true_2|].
  split; [by eexists|].
  intros j Hne. by rewrite lookup_insert_ne.
Qed.

(** X4: a sweep whose write succeeds leaves exactly the records that
    have not expired, each as it was, and the number it returns is the
    number of records that went. *)
Theorem cleanup_expired_exact current_time fs :
  let r := cleanup_expired self current_time WriteOk fs in
  (∀ i info,
      _load_exclusions r.2 !! i = Some info ↔
      _load_exclusions fs !! i = Some info
      ∧ expired self current_time info = false)
  ∧ (r.1 + size (_load_exclusions r.2) = size (_load_exclusions fs))%nat.
Proof.
  intros r. subst r. rewrite cleanup_expired_ok_load. split.
  - intros i info. apply lookup_swept.
  - rewrite <- (swept_count current_time (_load_exclusions fs)).
    f_equal. rewrite cleanup_expired_unfold.
    by destruct (expired_instances _ _ _).
Qed.

Lemma contains_unfold sub s :
  Py.contains sub s =
  if String.prefix sub s then true
  else match s with
       | EmptyString => false
       | String _ s' => Py.contains sub s'
       end.
Proof. by destruct s. Qed.

Lemma string_app_cons c s1 s2 : String c s1 +:+ s2 = String c (s1 +:+ s2).
Proof. reflexivity. Qed.

Lemma string_app_assoc s1 s2 s3 : (s1 +:+ s2) +:+ s3 = s1 +:+ (s2 +:+ s3).
Proof.
  induction s1 as [|c s1 IH]; [done|].
  by rewrite !string_app_cons, IH.
Qed.

Lemma prefix_app sub rest : String.prefix sub (sub +:+ rest) = true.
Proof.
  induction sub as [|c sub IH]; [by destruct rest|].
  rewrite string_app_cons. cbn [String.prefix].
  by destruct (Ascii.ascii_dec c c).
Qed.

Lemma contains_middle before sub rest :
  Py.contains sub (before +:+ (sub +:+ rest)) = true.
Proof.
  induction before as [|c before IH].
  - change (EmptyString +:+ (sub +:+ rest)) with (sub +:+ rest).
    by rewrite contains_unfold, prefix_app.
  - rewrite string_app_cons, contains_unfold.
    by destruct (String.prefix _ _).
Qed.


(** X6: while a record is running -- at most [timeout] seconds have
    passed since its [start_time] -- [should_monitor] returns [False] with
    a reason that quotes the record's error type and its readable start
    time, and the record stays in the store; only a write that breaks the
    file midway can prevent this. *)
Theorem should_monitor_running_record instance_id node current_time disk fs
    info c d :
  _load_exclusions fs !! instance_id = Some info →
  start_time info = Some c → ExclusionManager.timeout info = Some d →
  current_time - c ≤ d → disk ≠ WriteFailsMidway →
  let r := should_monitor self instance_id node current_time disk fs in
  r.1 = (false, Some (skip_reason info))
  ∧ _load_exclusions r.2 !! instance_id = Some info
  ∧ (∀ error, error_type info = Some error →
              Py.contains error (skip_reason info) = true)
  ∧ (∀ readable, readable_time info = Some readable →
                 Py.contains readable (skip_reason info) = true).
Proof.
  intros Hinfo Hc Hd Hle Hdisk r. subst r.
  assert (Hlive : expired self current_time info = false).
  { unfold expired. rewrite Hc, Hd. simpl. apply Z.ltb_ge. lia. }
  pose proof (cleanup_expired_keeps_live current_time disk fs instance_id info
                Hinfo Hlive Hdisk) as Hkept.
  rewrite should_monitor_unfold. cbv zeta. rewrite Hkept.
  assert (truthy info = true) as ->.
  { unfold truthy. rewrite Hc. by destruct (node_name info), (error_type info). }
  split; [done|]. split; [done|]. split.
  - intros error He. unfold skip_reason. rewrite He.
    cbn [default from_option id]. apply contains_middle.
  - intros readable Hr. unfold skip_reason. rewrite Hr.
    cbn [default from_option id].
    rewrite <- !string_app_assoc, string_app_assoc. apply contains_middle.
Qed.

End StoreExtras.

Section StatusExtras.

Import ExclusionStatus.

Variable self : ExclusionManager.t.

Implicit Types (fs : FileState) (disk : WriteOutcome).

Lemma elem_of_list_exclusions current_time fs item :
  item ∈ list_exclusions self current_time fs ↔
  ∃ info, _load_exclusions fs !! instance_id item = Some info
          ∧ item = item_of self current_time (instance_id item, info).
Proof.
  unfold list_exclusions. rewrite list_elem_of_fmap. split.
  - intros [[i info] [-> Hin]]. apply elem_of_map_to_list in Hin.
    by exists info.
  - intros (info & Hlook & Hitem). exists (instance_id item, info).
    split; [done|]. by apply elem_of_map_to_list.
Qed.

(** X7: [list_exclusions] has one item per record of the store, expired
    ones included -- it does not sweep.  In every item the remaining time
    is [max(0, timeout - elapsed)]: never negative, zero exactly when at
    least [timeout] seconds have elapsed, and [remaining_minutes] is its
    whole number of minutes. *)
Theorem list_exclusions_items current_time fs :
  length (list_exclusions self current_time fs) = size (_load_exclusions fs)
  ∧ (∀ i info,
      _load_exclusions fs !! i = Some info →
      item_of self current_time (i, info) ∈ list_exclusions self current_time fs)
  ∧ (∀ item,
      item ∈ list_exclusions self current_time fs →
      ∃ info,
        _load_exclusions fs !! instance_id item = Some info
        ∧ elapsed_seconds item
          = current_time - default 0 (ExclusionManager.start_time info)
        ∧ 0 ≤ remaining_seconds item
        ∧ (remaining_seconds item = 0 ↔
           default (default_timeout self) (ExclusionManager.timeout info)
           ≤ elapsed_seconds item)
        ∧ (0 < remaining_seconds item →
           remaining_seconds item
           = default (default_timeout self) (ExclusionManager.timeout info)
             - elapsed_seconds item)
        ∧ 60 * remaining_minutes item ≤ remaining_seconds item
          < 60 * remaining_minutes item + 60).
Proof.
  split; [|split].
  - unfold list_exclusions. by rewrite length_fmap, length_map_to_list.
  - intros i info Hlook. apply elem_of_list_exclusions. by exists info.
  - intros item Hin. apply elem_of_list_exclusions in Hin as (info & Hlook & ->).
    exists info. split; [done|]. unfold item_of. cbn.
    split; [done|]. split; [lia|]. split; [lia|]. split; [lia|].
    pose proof (Z.div_mod
      (Z.max 0 (default (default_timeout self) (ExclusionManager.timeout info)
                - (current_time - default 0 (ExclusionManager.start_time info))))
      60 ltac:(lia)) as Hdiv.
    pose proof (Z.mod_pos_bound
      (Z.max 0 (default (default_timeout self) (ExclusionManager.timeout info)
                - (current_time - default 0 (ExclusionManager.start_time info))))
      60 ltac:(lia)) as Hmod.
    lia.
Qed.

(** X8: [show_status] displays a record exactly while less than
    [timeout] seconds have elapsed, whereas the sweep needs more than
    [timeout]: at the instant [start_time + timeout] the record has left
    the table but [should_monitor] still returns [False] for it, unless
    the write of its sweep breaks the file midway. *)
Theorem show_status_displays_while_time_left instance_id node current_time
    disk fs info c d :
  _load_exclusions fs !! instance_id = Some info →
  ExclusionManager.start_time info = Some c →
  ExclusionManager.timeout info = Some d →
  (displayed instance_id (show_status self current_time fs)
   ↔ current_time - c < d)
  ∧ (current_time - c = d → disk ≠ WriteFailsMidway →
     ¬ displayed instance_id (show_status self current_time fs)
     ∧ (should_monitor self instance_id node current_time disk fs).1
       = (false, Some (skip_reason info))).
Proof.
  intros Hinfo Hc Hd.
  assert (Hshown : displayed instance_id (show_status self current_time fs)
                   ↔ current_time - c < d).
  { unfold show_status.
    assert (Hmine : item_of self current_time (instance_id, info)
                    ∈ list_exclusions self current_time fs).
    { apply elem_of_list_exclusions. by exists info. }
    destruct (list_exclusions self current_time fs) as [|first others] eqn:Hlist;
      [by apply elem_of_nil in Hmine|].
    rewrite <- Hlist in *. clear Hlist first others. simpl. split.
    - intros (item & Hin & Hid).
      apply list_elem_of_filter in Hin as [Hleft Hin].
      apply elem_of_list_exclusions in Hin as (info' & Hlook & Hitem).
      rewrite Hid, Hinfo in Hlook. injection Hlook as <-.
      rewrite Hitem in Hleft. unfold item_of in Hleft. cbn in Hleft.
      rewrite Hc, Hd in Hleft. simpl in Hleft. lia.
    - intros Hlt. exists (item_of self current_time (instance_id, info)).
      split; [|done]. apply list_elem_of_filter. split; [|done].
      unfold item_of. cbn. rewrite Hc, Hd. simpl. lia. }
  split; [done|]. intros Hnow Hdisk. split.
  - rewrite Hshown. lia.
  - assert (Hlive : expired self current_time info = false).
    { unfold expired. rewrite Hc, Hd. simpl. apply Z.ltb_ge. lia. }
    rewrite should_monitor_unfold. cbv zeta.
    rewrite (cleanup_expired_keeps_live self current_time disk fs instance_id
               info Hinfo Hlive Hdisk).
    assert (ExclusionManager.truthy info = true) as ->; [|done].
    unfold ExclusionManager.truthy. rewrite Hc.
    by destruct (ExclusionManager.node_name info),
                (ExclusionManager.error_type info).
Qed.

End StatusExtras.

(** * Properties of pod discovery *)

Section DiscoveryExtras.

Import PyText PodDiscovery.

Implicit Types (s line : string) (c sep : Ascii.ascii).

Lemma chars_app s1 s2 : chars (s1 +:+ s2) = chars s1 ++ chars s2.
Proof.
  induction s1 as [|c s1 IH]; [done|].
  rewrite string_app_cons. simpl. by rewrite IH.
Qed.

Lemma chars_lstrip s c : c ∈ chars (lstrip s) → c ∈ chars s.
Proof.
  induction s as [|a s IH]; simpl; [done|].
  destruct (is_space a); [|done]. intros Hin. right. by apply IH.
Qed.

Lemma chars_rstrip s c : c ∈ chars (rstrip s) → c ∈ chars s.
Proof.
  induction s as [|a s IH]; simpl; [done|].
  destruct (rstrip s) as [|b r] eqn:Hr.
  - destruct (is_space a); simpl; [by intros ?%elem_of_nil|].
    intros ->%list_elem_of_singleton. left.
  - simpl. intros [-> | Hin]%elem_of_cons; [left | right; by apply IH].
Qed.

Lemma chars_strip s c : c ∈ chars (strip s) → c ∈ chars s.
Proof. intros Hin. by apply chars_lstrip, chars_rstrip. Qed.

Lemma rstrip_idemp s : rstrip (rstrip s) = rstrip s.
Proof.
  induction s as [|a s IH]; simpl; [done|].
  destruct (rstrip s) as [|b r] eqn:Hr.
  - destruct (is_space a) eqn:Ha; simpl; [done | by rewrite Ha].
  - change (rstrip (String a (String b r)))
      with (match rstrip (String b r) with
            | EmptyString =>
                if is_space a then EmptyString else String a EmptyString
            | r' => String a r'
            end).
    by rewrite IH.
Qed.

Lemma lstrip_fixed_head s :
  lstrip s = s → match s with
               | EmptyString => True
               | String a _ => is_space a = false
               end.
Proof.
  destruct s as [|a s]; simpl; [done|].
  destruct (is_space a) eqn:Ha; [|done]. intros Heq.
  assert (Hlen : ∀ s', (String.length (lstrip s') ≤ String.length s')%nat).
  { induction s' as [|b s' IH]; simpl; [lia|]. destruct (is_space b); simpl; lia. }
  specialize (Hlen s). rewrite Heq in Hlen. simpl in Hlen. lia.
Qed.

Lemma lstrip_idemp s : lstrip (lstrip s) = lstrip s.
Proof.
  induction s as [|a s IH]; simpl; [done|].
  destruct (is_space a) eqn:Ha; [done|]. simpl. by rewrite Ha.
Qed.

Lemma lstrip_rstrip s : lstrip s = s → lstrip (rstrip s) = rstrip s.
Proof.
  intros Hfix. apply lstrip_fixed_head in Hfix.
  destruct s as [|a s]; [done|]. simpl.
  destruct (rstrip s); [rewrite Hfix|]; simpl; by rewrite Hfix.
Qed.

(** [strip] leaves no white space at either end. *)
Lemma strip_stripped s : lstrip (strip s) = strip s ∧ rstrip (strip s) = strip s.
Proof.
  unfold strip. split; [|apply rstrip_idemp].
  apply lstrip_rstrip, lstrip_idemp.
Qed.

Lemma strip_no_space s :
  Forall (λ c, is_space c = false) (chars s) → strip s = s.
Proof.
  intros Hall. unfold strip.
  assert (lstrip s = s) as ->.
  { destruct s as [|a s]; [done|]. simpl in *.
    inversion_clear Hall as [|?? Ha _]. by rewrite Ha. }
  induction s as [|a s IH]; [done|]. simpl in *.
  inversion_clear Hall as [|?? Ha Hrest]. rewrite (IH Hrest), Ha.
  by destruct s.
Qed.

Lemma split_not_nil sep s : split sep s ≠ [].
Proof.
  destruct s as [|a s]; simpl; [done|].
  destruct (Ascii.eqb a sep); [done|]. by destruct (split sep s).
Qed.

Lemma split_pieces sep s piece c :
  piece ∈ split sep s → c ∈ chars piece → c ∈ chars s ∧ c ≠ sep.
Proof.
  revert piece. induction s as [|a s IH]; simpl; intros piece Hin Hc.
  - apply list_elem_of_singleton in Hin as ->. by apply elem_of_nil in Hc.
  - destruct (Ascii.eqb a sep) eqn:Ha.
    + apply elem_of_cons in Hin as [-> | Hin]; [by apply elem_of_nil in Hc|].
      destruct (IH piece Hin Hc). split; [by right | done].
    + apply Ascii.eqb_neq in Ha.
      destruct (split sep s) as [|first others] eqn:Hsplit;
        [by destruct (split_not_nil sep s)|].
      apply elem_of_cons in Hin as [-> | Hin].
      * simpl in Hc. apply elem_of_cons in Hc as [-> | Hc]; [split; [left|done]|].
        destruct (IH first ltac:(left) Hc). split; [by right | done].
      * destruct (IH piece ltac:(by right) Hc). split; [by right | done].
Qed.

Lemma split_app sep s1 s2 :
  split sep (s1 +:+ String sep s2) =
  split sep s1 ++ split sep s2.
Proof.
  induction s1 as [|a s1 IH].
  - change (EmptyString +:+ String sep s2) with (String sep s2).
    simpl. by rewrite Ascii.eqb_refl.
  - rewrite string_app_cons. simpl. rewrite IH.
    destruct (Ascii.eqb a sep); [done|].
    destruct (split sep s1) eqn:Hs1; [by destruct (split_not_nil sep s1)|done].
Qed.

Lemma split_no_sep sep s : sep ∉ chars s → split sep s = [s].
Proof.
  induction s as [|a s IH]; simpl; [done|]. intros Hnot.
  apply not_elem_of_cons in Hnot as [Hne Hnot].
  rewrite IH by done.
  destruct (Ascii.eqb a sep) eqn:Ha; [|done].
  apply Ascii.eqb_eq in Ha. congruence.
Qed.

Lemma split_join sep pieces :
  pieces ≠ [] → Forall (λ piece, sep ∉ chars piece) pieces →
  split sep (join sep pieces) = pieces.
Proof.
  intros Hne Hall. induction Hall as [|piece rest Hpiece Hrest IH]; [done|].
  destruct rest as [|second rest].
  - simpl. by apply split_no_sep.
  - change (join sep (piece :: second :: rest))
      with (piece +:+ String sep (join sep (second :: rest))).
    rewrite split_app, split_no_sep by done.
    by rewrite IH.
Qed.

Lemma contains_char c s :
  c ∈ chars s → Py.contains (String c EmptyString) s = true.
Proof.
  induction s as [|a s IH]; [by intros ?%elem_of_nil|].
  simpl chars. rewrite contains_unfold. intros [-> | Hin]%elem_of_cons.
  - cbn [String.prefix]. destruct (Ascii.ascii_dec a a); [|done].
    by destruct s.
  - destruct (String.prefix _ _); [done|]. by apply IH.
Qed.

Lemma truthy_ne s : truthy s = true ↔ s ≠ EmptyString.
Proof.
  unfold truthy. rewrite negb_true_iff. apply String.eqb_neq.
Qed.

Lemma parse_line_Some line pod node :
  parse_line line = Some (pod, node) →
  pod ≠ EmptyString ∧ node ≠ EmptyString
  ∧ strip pod = pod ∧ strip node = node
  ∧ (∀ c, c ∈ chars pod ∨ c ∈ chars node → c ∈ chars line ∧ c ≠ pipe).
Proof.
  unfold parse_line.
  destruct (Py.contains _ _); [|done].
  destruct (2 <=? length (split pipe (strip line)))%nat; [|done].
  destruct (split pipe (strip line)) as [|part0 [|part1 parts]] eqn:Hparts;
    simpl.
  - by destruct (split_not_nil pipe (strip line)).
  - rewrite andb_false_r. done.
  - destruct (truthy (strip part0)) eqn:H0; [|done].
    destruct (truthy (strip part1)) eqn:H1; [|done].
    simpl. intros [= <- <-].
    apply truthy_ne in H0. apply truthy_ne in H1.
    split; [done|]. split; [done|].
    split; [unfold strip at 1; rewrite (proj1 (strip_stripped part0));
            apply strip_stripped|].
    split; [unfold strip at 1; rewrite (proj1 (strip_stripped part1));
            apply strip_stripped|].
    intros c [Hc | Hc]; apply chars_strip in Hc.
    + destruct (split_pieces pipe (strip line) part0 c) as [Hin Hne];
        [rewrite Hparts; left | done |].
      split; [by apply chars_strip | done].
    + destruct (split_pieces pipe (strip line) part1 c) as [Hin Hne];
        [rewrite Hparts; right; left | done |].
      split; [by apply chars_strip | done].
Qed.

Lemma length_omap_le {A B} (f : A → option B) (l : list A) :
  (length (omap f l) ≤ length l)%nat.
Proof.
  induction l as [|x l IH]; [done|]. unfold omap in *. simpl.
  destruct (f x); simpl; lia.
Qed.

(** X9: every pair that [get_dcgm_pods_with_nodes] returns has a pod name
    and a node name that are not empty, carry no white space at either
    end, and contain neither [|] nor a line break; there are at most as
    many pairs as lines in the output. *)
Theorem get_dcgm_pods_with_nodes_names gpu_utils_exists success output :
  let pods_info := get_dcgm_pods_with_nodes gpu_utils_exists success output in
  (length pods_info ≤ length (split newline output))%nat
  ∧ ∀ pod node, (pod, node) ∈ pods_info →
      pod ≠ EmptyString ∧ node ≠ EmptyString
      ∧ strip pod = pod ∧ strip node = node
      ∧ (pipe ∉ chars pod) ∧ (pipe ∉ chars node)
      ∧ (newline ∉ chars pod) ∧ (newline ∉ chars node).
Proof.
  intros pods_info. subst pods_info. unfold get_dcgm_pods_with_nodes.
  assert (Hlen : (0 ≤ length (split newline output))%nat) by lia.
  destruct (negb gpu_utils_exists); [split; [done | by intros ?? ?%elem_of_nil]|].
  destruct (negb success); [split; [done | by intros ?? ?%elem_of_nil]|].
  destruct (negb (truthy output)); [split; [done | by intros ?? ?%elem_of_nil]|].
  split; [apply length_omap_le|].
  intros pod node Hin. apply list_elem_of_omap in Hin as (line & Hline & Hparse).
  destruct (parse_line_Some line pod node Hparse)
    as (Hpod & Hnode & Hspod & Hsnode & Hchars).
  split; [done|]. split; [done|]. split; [done|]. split; [done|].
  split; [intros Hc; by destruct (Hchars pipe (or_introl Hc))|].
  split; [intros Hc; by destruct (Hchars pipe (or_intror Hc))|].
  split; intros Hc.
  - destruct (Hchars newline (or_introl Hc)) as [Hin _].
    by destruct (split_pieces newline output line newline Hline Hin).
  - destruct (Hchars newline (or_intror Hc)) as [Hin _].
    by destruct (split_pieces newline output line newline Hline Hin).
Qed.

Lemma plain_chars name :
  plain name →
  Forall (λ c, is_space c = false) (chars name)
  ∧ (pipe ∉ chars name) ∧ (newline ∉ chars name).
Proof.
  intros [_ Hall]. split; [|split].
  - eapply Forall_impl; [done|]. by intros c [? _].
  - intros Hin. rewrite Forall_forall in Hall. by destruct (Hall pipe Hin).
  - intros Hin. rewrite Forall_forall in Hall.
    by destruct (Hall newline Hin) as [? _].
Qed.

Lemma parse_line_plain pod node :
  plain pod → plain node →
  parse_line (pod +:+ String pipe node) = Some (pod, node).
Proof.
  intros Hpod Hnode.
  destruct (plain_chars pod Hpod) as (Hpod_space & Hpod_pipe & _).
  destruct (plain_chars node Hnode) as (Hnode_space & Hnode_pipe & _).
  unfold parse_line. rewrite strip_no_space.
  2: { rewrite chars_app. simpl. apply Forall_app. split; [done|].
       by constructor. }
  rewrite contains_char
    by (rewrite chars_app; apply elem_of_app; right; left).
  rewrite split_app, !split_no_sep by done. simpl.
  rewrite !strip_no_space by done.
  destruct Hpod as [Hpod _], Hnode as [Hnode _].
  apply truthy_ne in Hpod. apply truthy_ne in Hnode.
  by rewrite Hpod, Hnode.
Qed.

Lemma get_dcgm_pods_with_nodes_lines output :
  get_dcgm_pods_with_nodes true true output
  = omap parse_line (split newline output).
Proof.
  unfold get_dcgm_pods_with_nodes. simpl.
  destruct (truthy output) eqn:Hout; [done|].
  apply negb_true_iff in Hout. unfold truthy in Hout.
  rewrite negb_involutive in Hout. by apply String.eqb_eq in Hout as ->.
Qed.

(** X10: discovery reads back what the shell function prints.  For a
    list of pairs whose names are not empty and contain neither white
    space nor [|], parsing the lines [pod|node], one per pair, returns the
    list, in order. *)
Theorem get_dcgm_pods_with_nodes_render pods_info :
  Forall (λ pair, plain pair.1 ∧ plain pair.2) pods_info →
  get_dcgm_pods_with_nodes true true (render pods_info) = pods_info.
Proof.
  intros Hall. rewrite get_dcgm_pods_with_nodes_lines.
  destruct pods_info as [|pair rest]; [done|].
  unfold render. rewrite split_join.
  - induction Hall as [|[pod node] others [Hpod Hnode] Hothers IH]; [done|].
    rewrite fmap_cons. unfold omap in *. simpl.
    rewrite parse_line_plain by done. simpl. by rewrite IH.
  - done.
  - apply Forall_fmap. eapply Forall_impl; [done|].
    intros [pod node] [Hpod Hnode]. simpl.
    destruct (plain_chars pod Hpod) as (_ & _ & Hp).
    destruct (plain_chars node Hnode) as (_ & _ & Hn).
    rewrite chars_app. simpl.
    intros [Hin | [Hin | Hin]%elem_of_cons]%elem_of_app; done.
Qed.

(** X11: discovery gives the empty list when [gpu-utils.sh] is missing,
    when the shell command fails, and when it prints nothing; otherwise
    the lines are read one by one, so that the pairs found in two outputs
    joined by a line break are those of the first followed by those of the
    second, and a line without [|] adds nothing. *)
Theorem get_dcgm_pods_with_nodes_by_line output1 output2 line :
  (∀ success output, get_dcgm_pods_with_nodes false success output = [])
  ∧ (∀ output, get_dcgm_pods_with_nodes true false output = [])
  ∧ get_dcgm_pods_with_nodes true true EmptyString = []
  ∧ get_dcgm_pods_with_nodes true true (output1 +:+ String newline output2)
    = get_dcgm_pods_with_nodes true true output1
      ++ get_dcgm_pods_with_nodes true true output2
  ∧ (pipe ∉ chars line → newline ∉ chars line →
     get_dcgm_pods_with_nodes true true
       (output1 +:+ String newline (line +:+ String newline output2))
     = get_dcgm_pods_with_nodes true true
         (output1 +:+ String newline output2)).
Proof.
  split; [done|]. split; [done|]. split; [done|].
  assert (Happ : ∀ o1 o2,
    get_dcgm_pods_with_nodes true true (o1 +:+ String newline o2)
    = get_dcgm_pods_with_nodes true true o1
      ++ get_dcgm_pods_with_nodes true true o2).
  { intros. rewrite !get_dcgm_pods_with_nodes_lines, split_app.
    apply omap_app. }
  split; [apply Happ|].
  intros Hpipe Hnl. rewrite !Happ. f_equal.
  assert (get_dcgm_pods_with_nodes true true line = []) as ->; [|done].
  rewrite get_dcgm_pods_with_nodes_lines, split_no_sep by done.
  unfold omap. simpl. unfold parse_line.
  destruct (Py.contains _ _) eqn:Hc; [|done]. exfalso.
  assert (Hnot : ∀ s, pipe ∉ chars s → Py.contains (String pipe EmptyString) s = false).
  { induction s as [|a s IH]; [done|]. simpl chars.
    intros [Hne Hrest]%not_elem_of_cons. rewrite contains_unfold.
    cbn [String.prefix]. destruct (Ascii.ascii_dec pipe a); [congruence|].
    by apply IH. }
  rewrite Hnot in Hc; [done|]. intros Hin. by apply chars_strip in Hin.
Qed.

End DiscoveryExtras.

(** * Further properties of the monitor *)

Section MonitorExtras.

Import Cycle.

Variable env : Env.
Variable self : DCGMMonitor.t.

Implicit Types (w : World) (tr : list Event).

Ltac run :=
  unfold mbind, M_bind, emit, shell, store_op, mret, M_ret, raise;
  cbn beta iota zeta delta [fst snd file trace store_ops].

Lemma xid_not_healthy error_class :
  Py.contains "XID" error_class = true → error_class ≠ "HEALTHY".
Proof. by intros Hxid ->. Qed.

Lemma classified_app tr1 tr2 :
  classified (tr1 ++ tr2) = classified tr1 ++ classified tr2.
Proof. apply omap_app. Qed.


Lemma monitor_single_node_skip pod node w :
  (answer env self node w).1.1 = false →
  monitor_single_node env self pod node w =
  (Returns true,
   {| file := (answer env self node w).2; trace := trace w ++ [GetInstanceId node];
      store_ops := S (store_ops w) |}).
Proof.
  unfold answer, monitor_single_node.
  unfold mbind at 1. unfold M_bind at 1. rewrite get_instance_id_run. run.
  destruct (should_monitor _ _ _ _ _ _) as [[should reason] fs'].
  cbn [fst snd]. by intros ->.
Qed.

Lemma answer_subseteq node w :
  _load_exclusions (answer env self node w).2 ⊆ _load_exclusions (file w).
Proof.
  unfold answer. rewrite should_monitor_file. apply cleanup_expired_subseteq.
Qed.

Lemma answer_running node w info c d :
  _load_exclusions (file w) !! instance_of env (store_ops w) node = Some info →
  start_time info = Some c → ExclusionManager.timeout info = Some d →
  now env (store_ops w) - c ≤ d →
  disk env (store_ops w) ≠ WriteFailsMidway →
  (answer env self node w).1.1 = false
  ∧ _load_exclusions (answer env self node w).2
      !! instance_of env (store_ops w) node = Some info.
Proof.
  intros Hinfo Hc Hd Hle Hdisk. unfold answer.
  assert (Hlive : expired (exclusion_manager self) (now env (store_ops w)) info
                  = false).
  { unfold expired. rewrite Hc, Hd. simpl. apply Z.ltb_ge. lia. }
  pose proof (cleanup_expired_keeps_live (exclusion_manager self)
                (now env (store_ops w)) (disk env (store_ops w)) (file w)
                (instance_of env (store_ops w) node) info Hinfo Hlive Hdisk)
    as Hkept.
  rewrite should_monitor_unfold. cbv zeta. rewrite Hkept.
  assert (truthy info = true) as ->; [|done].
  unfold truthy. rewrite Hc. by destruct (node_name info), (error_type info).
Qed.

(** X12: what [handle_gpu_error] dispatches for a well-formed descriptor
    is fixed by the class name and the count alone -- not by the store, the
    disk, the clock or the manager: the metric unless the class is HEALTHY, the
    replacement request when the name contains "XID" and the count exceeds
    5, the reboot request when it contains "XID" and the count is at most
    5; never more than one remediation request. *)
Theorem handle_gpu_error_requests error_class error_count error_gpu_id
    node instance_id :
  ∃ new,
    (∀ env' self' w, ∃ w',
        handle_gpu_error env' self'
          {| DCGMMonitor.error_class := Some error_class;
             DCGMMonitor.error_count := Some error_count;
             DCGMMonitor.error_gpu_id := error_gpu_id |} node instance_id w
        = (Returns (), w')
        ∧ trace w' = trace w ++ (Dispatched <$> new))
    ∧ (send_cloudwatch_metrics error_class error_count node instance_id ∈ new
       ↔ error_class ≠ "HEALTHY")
    ∧ (call_replace_script node instance_id 900 ∈ new
       ↔ Py.contains "XID" error_class = true ∧ 5 < error_count)
    ∧ (call_reboot_script node instance_id 30 true ∈ new
       ↔ Py.contains "XID" error_class = true ∧ error_count ≤ 5)
    ∧ (length (filter is_remediation new) ≤ 1)%nat
    ∧ (length new ≤ 2)%nat.
Proof.
  destruct (decide (error_class = "HEALTHY")) as [-> | Hne].
  - exists []. split.
    { intros env' self' w. exists w. rewrite handle_gpu_error_healthy.
      split; [done|]. by rewrite app_nil_r. }
    change (Py.contains "XID" "HEALTHY") with false.
    split_and!; try (simpl; lia); rewrite ?elem_of_nil; naive_solver.
  - destruct (Py.contains "XID" error_class) eqn:Hxid;
      [destruct (5 <? error_count) eqn:Hcount;
       [apply Z.ltb_lt in Hcount | apply Z.ltb_ge in Hcount] |].
    + exists [send_cloudwatch_metrics error_class error_count node instance_id;
              call_replace_script node instance_id 900].
      split.
      { intros env' self' w. rewrite handle_gpu_error_unhealthy by done. cbv zeta.
        rewrite Hxid, (proj2 (Z.ltb_lt _ _) Hcount). by eexists. }
      split_and!; try (simpl; lia);
        rewrite ?elem_of_cons, ?elem_of_nil; naive_solver lia.
    + exists [send_cloudwatch_metrics error_class error_count node instance_id;
              call_reboot_script node instance_id 30 true].
      split.
      { intros env' self' w. rewrite handle_gpu_error_unhealthy by done. cbv zeta.
        rewrite Hxid, (proj2 (Z.ltb_ge _ _) Hcount). by eexists. }
      split_and!; try (simpl; lia);
        rewrite ?elem_of_cons, ?elem_of_nil; naive_solver lia.
    + exists [send_cloudwatch_metrics error_class error_count node instance_id].
      split.
      { intros env' self' w. rewrite handle_gpu_error_unhealthy by done. cbv zeta.
        rewrite Hxid. by eexists. }
      split_and!; try (simpl; lia);
        rewrite ?elem_of_cons, ?elem_of_nil; naive_solver.
Qed.

(** X13: the policy does not look at the result of [add_exclusion].  For
    a class whose name contains "XID" the metric and the remediation
    request go out all the same when the instance already has a record
    (which stays as it is, the file untouched) and when the write fails (no
    record results, so nothing will hold back the next cycle). *)
Theorem handle_gpu_error_ignores_store_result error_class error_count
    error_gpu_id node instance_id w :
  Py.contains "XID" error_class = true →
  ∃ w',
    handle_gpu_error env self
      {| DCGMMonitor.error_class := Some error_class;
         DCGMMonitor.error_count := Some error_count;
         DCGMMonitor.error_gpu_id := error_gpu_id |} node instance_id w
    = (Returns (), w')
    ∧ requests (trace w') = requests (trace w) ++
        [send_cloudwatch_metrics error_class error_count node instance_id;
         if 5 <? error_count then call_replace_script node instance_id 900
         else call_reboot_script node instance_id 30 true]
    ∧ (is_Some (_load_exclusions (file w) !! instance_id) → file w' = file w)
    ∧ (_load_exclusions (file w) !! instance_id = None →
       disk env (store_ops w) ≠ WriteOk →
       _load_exclusions (file w') !! instance_id = None).
Proof.
  intros Hxid. pose proof (xid_not_healthy _ Hxid) as Hne.
  rewrite handle_gpu_error_unhealthy by done. cbv zeta. rewrite Hxid.
  destruct (5 <? error_count); eexists; (split; [reflexivity|]);
    cbn [trace file]; rewrite requests_app;
    (split; [reflexivity|]); unfold file_after_add; split.
  - intros Hsome. by rewrite add_exclusion_present.
  - intros Hnone Hdisk. rewrite add_exclusion_absent by done.
    destruct (disk env (store_ops w)); [done | done | apply lookup_empty].
  - intros Hsome. by rewrite add_exclusion_present.
  - intros Hnone Hdisk. rewrite add_exclusion_absent by done.
    destruct (disk env (store_ops w)); [done | done | apply lookup_empty].
Qed.

(** X14: a node whose instance -- the id that [get_instance_id] returns
    for it, the node name when the lookup fails or prints nothing -- has a
    running record is skipped, provided the write of the sweep that
    [should_monitor] starts with does not break the file midway:
    [monitor_single_node] returns [True] after the instance-id lookup and
    the check of the store, without a telemetry query, a classification
    or a request, and the record stays. *)
Theorem monitor_single_node_skips_suppressed pod node w info c d :
  _load_exclusions (file w) !! instance_of env (store_ops w) node = Some info →
  start_time info = Some c → ExclusionManager.timeout info = Some d →
  now env (store_ops w) - c ≤ d →
  disk env (store_ops w) ≠ WriteFailsMidway →
  ∃ w',
    monitor_single_node env self pod node w = (Returns true, w')
    ∧ trace w' = trace w ++ [GetInstanceId node]
    ∧ _load_exclusions (file w') !! instance_of env (store_ops w) node
      = Some info.
Proof.
  intros Hinfo Hc Hd Hle Hdisk.
  destruct (answer_running node w info c d Hinfo Hc Hd Hle Hdisk)
    as [Hskip Hkept].
  rewrite monitor_single_node_skip by done. by eexists.
Qed.


(** X16: when the telemetry of a node cannot be fetched -- the query
    fails or comes back empty -- [monitor_single_node] returns without
    raising, [False] if the node was eligible and [True] if it was
    skipped; it calls the classifier not at all, dispatches nothing and
    adds no record. *)
Theorem monitor_single_node_fetch_failure pod node w :
  Py.truthy_str (shell_query_dcgm_metrics env pod node) = false →
  ∃ w',
    monitor_single_node env self pod node w
    = (Returns (negb (answer env self node w).1.1), w')
    ∧ requests (trace w') = requests (trace w)
    ∧ classified (trace w') = classified (trace w)
    ∧ _load_exclusions (file w') ⊆ _load_exclusions (file w).
Proof.
  intros Hfetch. pose proof (answer_subseteq node w) as Hsub.
  destruct ((answer env self node w).1.1) eqn:Heligible.
  - revert Hsub Heligible.
    unfold answer, monitor_single_node, query_dcgm_metrics.
    unfold mbind at 1. unfold M_bind at 1. rewrite get_instance_id_run. run;
      destruct (should_monitor _ _ _ _ _ _) as [[should reason] fs'];
      cbn [fst snd]; intros Hsub ->; cbn [negb]; rewrite Hfetch; cbn [negb];
      eexists; (split; [reflexivity|]); cbn [trace file];
      rewrite !requests_app, !classified_app; cbn; by rewrite !app_nil_r.
  - rewrite monitor_single_node_skip by done. eexists. split; [done|].
    cbn [trace file]. rewrite requests_app, classified_app. cbn.
    by rewrite !app_nil_r.
Qed.

(** X17: when the classifier gives nothing to act on -- it raises, its
    answer is not a dict, the dict lacks [error_class], or it names an
    unhealthy class and lacks [error_count] -- the evaluation of an
    eligible node raises, and in every case nothing is dispatched (not
    even the metric) and no record is added. *)
Theorem monitor_single_node_classification_failure pod node w metrics :
  shell_query_dcgm_metrics env pod node = Some metrics →
  metrics ≠ EmptyString →
  classification_fails (parse_gpu_metric_info env metrics) →
  let r := monitor_single_node env self pod node w in
  requests (trace r.2) = requests (trace w)
  ∧ _load_exclusions (file r.2) ⊆ _load_exclusions (file w)
  ∧ ((answer env self node w).1.1 = true → ∃ e, r.1 = Raises e)
  ∧ ((answer env self node w).1.1 = false → r.1 = Returns true).
Proof.
  intros Hquery Hmetrics Hfails r. subst r.
  pose proof (answer_subseteq node w) as Hsub.
  destruct ((answer env self node w).1.1) eqn:Heligible.
  - assert (Htruthy : Py.truthy_str (Some metrics) = true).
    { unfold Py.truthy_str. apply negb_true_iff. by apply String.eqb_neq. }
    revert Hsub Heligible.
    unfold answer, monitor_single_node, query_dcgm_metrics,
      process_metrics_llm.
    run. rewrite get_instance_id_run. run;
      destruct (should_monitor _ _ _ _ _ _) as [[should reason] fs'];
      cbn [fst snd]; intros Hsub ->; cbn [negb];
      rewrite Hquery, Htruthy; cbn [negb default from_option id];
      (destruct (parse_gpu_metric_info env metrics)
         as [[[cls|] [cnt|] gpu]| |e]; simpl in Hfails;
       [ destruct Hfails as [? | [Hcls ?]]; [done|done]
       | destruct Hfails as [? | [Hcls _]]; [done|];
         unfold getitem, handle_gpu_error; cbn;
         assert (Py.str_ne "HEALTHY" cls = true) as ->
           by (apply str_ne_healthy; congruence); run; cbn
       | unfold getitem; run; cbn
       | unfold getitem; run; cbn
       | | ]);
      cbn [trace file fst snd];
      (split; [rewrite !requests_app; cbn; by rewrite !app_nil_r|]);
      (split; [done|]); (split; [by eexists | done]).
  - rewrite monitor_single_node_skip by done. cbn [fst snd trace file].
    rewrite requests_app. cbn. rewrite app_nil_r.
    split; [done|]. split; [done|]. split; [done | done].
Qed.

(** What an evaluation does with an eligible node whose report is
    classified as unhealthy: the policy runs for the instance id the
    lookup gave, on the file the sweep left. *)
Lemma monitor_single_node_acts pod node w metrics error_class error_count
    error_gpu_id :
  (answer env self node w).1.1 = true →
  shell_query_dcgm_metrics env pod node = Some metrics →
  metrics ≠ EmptyString →
  parse_gpu_metric_info env metrics
  = LLMDict {| DCGMMonitor.error_class := Some error_class;
               DCGMMonitor.error_count := Some error_count;
               DCGMMonitor.error_gpu_id := error_gpu_id |} →
  error_class ≠ "HEALTHY" →
  monitor_single_node env self pod node w =
  (Returns true,
   (handle_gpu_error env self
      {| DCGMMonitor.error_class := Some error_class;
         DCGMMonitor.error_count := Some error_count;
         DCGMMonitor.error_gpu_id := error_gpu_id |}
      node (instance_of env (store_ops w) node)
      {| file := (answer env self node w).2;
         trace := ((trace w ++ [GetInstanceId node])
                   ++ [QueryDcgmMetrics pod node])
                  ++ [ParseGpuMetricInfo metrics];
         store_ops := S (store_ops w) |}).2).
Proof.
  intros Heligible Hquery Hmetrics Hparse Hne.
  assert (Htruthy : Py.truthy_str (Some metrics) = true).
  { unfold Py.truthy_str. apply negb_true_iff. by apply String.eqb_neq. }
  rewrite handle_gpu_error_unhealthy by done. revert Heligible.
  unfold answer, monitor_single_node, query_dcgm_metrics, process_metrics_llm.
  run. rewrite get_instance_id_run. run.
  destruct (should_monitor _ _ _ _ _ _) as [[should reason] fs'].
  cbn [fst snd]. intros ->. cbn [negb].
  rewrite Hquery, Htruthy. cbn [negb default from_option id].
  rewrite Hparse. unfold getitem. cbn [DCGMMonitor.error_class].
  run. rewrite (str_ne_healthy _ Hne).
  rewrite handle_gpu_error_unhealthy by done. reflexivity.
Qed.


(** X20: an eligible node whose report is classified with a class whose
    name contains "XID" is remediated in the same evaluation:
    [monitor_single_node] returns [True], having dispatched the metric and
    then one remediation request -- the replacement when the count
    exceeds 5, the reboot otherwise -- both for the instance id that
    [get_instance_id] gave (the node name when the lookup failed), and
    having called [add_exclusion] for that id with 900 s or 200 s at the
    store's next operation. *)
Theorem monitor_single_node_remediates pod node w metrics error_class
    error_count error_gpu_id :
  (answer env self node w).1.1 = true →
  shell_query_dcgm_metrics env pod node = Some metrics →
  metrics ≠ EmptyString →
  parse_gpu_metric_info env metrics
  = LLMDict {| DCGMMonitor.error_class := Some error_class;
               DCGMMonitor.error_count := Some error_count;
               DCGMMonitor.error_gpu_id := error_gpu_id |} →
  Py.contains "XID" error_class = true →
  let instance_id := instance_of env (store_ops w) node in
  ∃ w',
    monitor_single_node env self pod node w = (Returns true, w')
    ∧ requests (trace w') = requests (trace w) ++
        [send_cloudwatch_metrics error_class error_count node instance_id;
         if 5 <? error_count then call_replace_script node instance_id 900
         else call_reboot_script node instance_id 30 true]
    ∧ file w'
      = (add_exclusion (strftime env) (exclusion_manager self) instance_id
           node error_class (Some (if 5 <? error_count then 900 else 200))
           (now env (S (store_ops w))) (disk env (S (store_ops w)))
           (answer env self node w).2).2
    ∧ store_ops w' = S (S (store_ops w)).
Proof.
  intros Heligible Hquery Hmetrics Hparse Hxid instance_id.
  pose proof (xid_not_healthy _ Hxid) as Hne.
  rewrite (monitor_single_node_acts pod node w metrics error_class error_count
             error_gpu_id) by done.
  rewrite handle_gpu_error_unhealthy by done. cbv zeta. rewrite Hxid.
  eexists. split; [reflexivity|]. unfold file_after_add.
  destruct (5 <? error_count); cbn [trace file store_ops snd];
    rewrite !requests_app; cbn; by rewrite !app_nil_r.
Qed.


End MonitorExtras.

Section CycleBound.

Import Cycle.

Variable env : Env.
Variable self : DCGMMonitor.t.

(** A weight that only dispatched requests can carry, and for which the
    policy adds at most one. *)
Variable μ : Event → nat.
Hypothesis μ_get : ∀ n, μ (GetInstanceId n) = 0%nat.
Hypothesis μ_query : ∀ p n, μ (QueryDcgmMetrics p n) = 0%nat.
Hypothesis μ_parse : ∀ m, μ (ParseGpuMetricInfo m) = 0%nat.
Hypothesis μ_logged : ∀ n e, μ (LoggedException n e) = 0%nat.
Hypothesis μ_policy :
  ∀ parsed_error node instance_id,
    adds μ 1 (handle_gpu_error env self parsed_error node instance_id).

Lemma weight_app tr1 tr2 : weight μ (tr1 ++ tr2) = (weight μ tr1 + weight μ tr2)%nat.
Proof.
  unfold weight. induction tr1 as [|e tr1 IH]; [done|].
  rewrite <- app_comm_cons, !fmap_cons. simpl. rewrite IH. lia.
Qed.

Lemma adds_ret {A} (a : A) : adds μ 0 (mret a).
Proof. intros w. exists []. by rewrite app_nil_r. Qed.

Lemma adds_raise {A} e : adds μ 0 (@raise A e).
Proof. intros w. exists []. by rewrite app_nil_r. Qed.

Lemma adds_mono {A} (c : M A) n m : (n ≤ m)%nat → adds μ n c → adds μ m c.
Proof. intros Hle Hc w. destruct (Hc w) as (tl & ? & ?). exists tl. split; [done|lia]. Qed.

Lemma adds_bind {A B} (c : M A) (k : A → M B) n m :
  adds μ n c → (∀ a, adds μ m (k a)) → adds μ (n + m) (c ≫= k).
Proof.
  intros Hc Hk w. unfold mbind, M_bind.
  destruct (Hc w) as (tl1 & Htl1 & Hw1).
  destruct (c w) as [[a|e] w1]; simpl in *.
  - destruct (Hk a w1) as (tl2 & Htl2 & Hw2).
    exists (tl1 ++ tl2). rewrite Htl2, Htl1, weight_app, app_assoc.
    split; [done|lia].
  - exists tl1. split; [done|lia].
Qed.

Lemma adds_try_except {A} (body : M A) (handler : Exception → M A) n m :
  adds μ n body → (∀ e, adds μ m (handler e)) →
  adds μ (n + m) (try_except body handler).
Proof.
  intros Hc Hk w. unfold try_except.
  destruct (Hc w) as (tl1 & Htl1 & Hw1).
  destruct (body w) as [[a|e] w1]; simpl in *.
  - exists tl1. split; [done|lia].
  - destruct (Hk e w1) as (tl2 & Htl2 & Hw2).
    exists (tl1 ++ tl2). rewrite Htl2, Htl1, weight_app, app_assoc.
    split; [done|lia].
Qed.

Lemma adds_emit e : adds μ (μ e) (emit e).
Proof.
  intros w. exists [e]. split; [done|]. unfold weight. simpl. lia.
Qed.

Lemma adds_store_op {A} (op : Z → WriteOutcome → FileState → A * FileState) :
  adds μ 0 (store_op env op).
Proof. intros w. exists []. by rewrite app_nil_r. Qed.

Lemma adds_getitem {A} key (field : option A) : adds μ 0 (getitem key field).
Proof. destruct field; [apply adds_ret | apply adds_raise]. Qed.

Lemma adds_monitor_single_node pod node :
  adds μ 1 (monitor_single_node env self pod node).
Proof.
  unfold monitor_single_node, get_instance_id, query_dcgm_metrics,
    process_metrics_llm.
  apply (adds_bind _ _ 0 1).
  { apply (adds_bind _ _ 0 0).
    - rewrite <- (μ_get node). apply adds_emit.
    - intros _. apply (adds_bind _ _ 0 0).
      + intros w. exists []. by rewrite app_nil_r.
      + intros [output|]; [destruct (PyText.truthy output)|]; apply adds_ret. }
  intros instance_id.
  apply (adds_bind _ _ 0 1); [apply adds_store_op|]. intros [should reason].
  destruct (negb should); [apply (adds_mono _ 0); [lia | apply adds_ret]|].
  apply (adds_bind _ _ 0 1).
  { apply (adds_bind _ _ 0 0).
    - rewrite <- (μ_query pod node). apply adds_emit.
    - intros _. apply adds_ret. }
  intros metrics.
  destruct (negb _); [apply (adds_mono _ 0); [lia | apply adds_ret]|].
  apply (adds_bind _ _ 0 1).
  { apply (adds_bind _ _ 0 0).
    - rewrite <- (μ_parse (default EmptyString metrics)). apply adds_emit.
    - intros _. destruct (parse_gpu_metric_info _ _);
        [apply adds_ret | apply adds_raise | apply adds_raise]. }
  intros error_detail.
  apply (adds_bind _ _ 0 1); [apply adds_getitem|]. intros error_class.
  apply (adds_bind _ _ 1 0); [|intros _; apply adds_ret].
  destruct (Py.str_ne _ _);
    [apply μ_policy | apply (adds_mono _ 0); [lia | apply adds_ret]].
Qed.

Lemma adds_monitor_each pods_info :
  adds μ (length pods_info) (monitor_each env self pods_info).
Proof.
  induction pods_info as [|[pod node] rest IH]; [apply adds_ret|].
  cbn [monitor_each length]. apply (adds_bind _ _ 1 (length rest)).
  - apply (adds_try_except _ _ 1 0).
    + apply (adds_bind _ _ 1 0); [apply adds_monitor_single_node|].
      intros _. apply adds_ret.
    + intros e. rewrite <- (μ_logged node e). apply adds_emit.
  - intros _. apply IH.
Qed.

End CycleBound.

Section CycleExtras.

Import Cycle.

Variable env : Env.
Variable self : DCGMMonitor.t.

Lemma weight_remediation tr :
  weight remediation_weight tr = length (filter is_remediation (requests tr)).
Proof.
  induction tr as [|e tr IH]; [done|].
  change (e :: tr) with ([e] ++ tr).
  rewrite weight_app, requests_app, filter_app, length_app, IH. f_equal.
  destruct e as [| | |r|]; try done.
  change (requests [Dispatched r]) with [r].
  rewrite filter_cons, filter_nil. unfold weight. simpl.
  by destruct (is_remediation r).
Qed.

Lemma weight_metric tr :
  weight metric_weight tr = length (filter is_metric (requests tr)).
Proof.
  induction tr as [|e tr IH]; [done|].
  change (e :: tr) with ([e] ++ tr).
  rewrite weight_app, requests_app, filter_app, length_app, IH. f_equal.
  destruct e as [| | |r|]; try done.
  change (requests [Dispatched r]) with [r].
  rewrite filter_cons, filter_nil. unfold weight. simpl.
  by destruct (is_metric r).
Qed.

Lemma policy_adds_remediation parsed_error node instance_id :
  adds remediation_weight 1 (handle_gpu_error env self parsed_error node instance_id).
Proof.
  unfold handle_gpu_error.
  apply (adds_bind _ _ _ 0 1); [apply adds_getitem|]. intros error_class.
  apply (adds_bind _ _ _ 0 1); [apply adds_getitem|]. intros error_count.
  apply (adds_bind _ _ _ 0 1).
  { destruct (Py.str_ne _ _); [|apply adds_ret].
    apply (adds_emit remediation_weight
             (Dispatched (send_cloudwatch_metrics _ _ _ _))). }
  intros _.
  destruct (_ && _); [|destruct (_ && _)].
  - apply (adds_bind _ _ _ 0 1); [apply adds_store_op|]. intros _.
    apply (adds_emit remediation_weight
             (Dispatched (call_replace_script _ _ _))).
  - apply (adds_bind _ _ _ 0 1); [apply adds_store_op|]. intros _.
    apply (adds_emit remediation_weight
             (Dispatched (call_reboot_script _ _ _ _))).
  - apply (adds_mono _ _ 0); [lia | apply adds_ret].
Qed.

Lemma policy_adds_metric parsed_error node instance_id :
  adds metric_weight 1 (handle_gpu_error env self parsed_error node instance_id).
Proof.
  unfold handle_gpu_error.
  apply (adds_bind _ _ _ 0 1); [apply adds_getitem|]. intros error_class.
  apply (adds_bind _ _ _ 0 1); [apply adds_getitem|]. intros error_count.
  apply (adds_bind _ _ _ 1 0).
  { destruct (Py.str_ne _ _); [|apply (adds_mono _ _ 0); [lia | apply adds_ret]].
    apply (adds_emit metric_weight
             (Dispatched (send_cloudwatch_metrics _ _ _ _))). }
  intros _.
  destruct (_ && _); [|destruct (_ && _)].
  - apply (adds_bind _ _ _ 0 0); [apply adds_store_op|]. intros _.
    apply (adds_emit metric_weight (Dispatched (call_replace_script _ _ _))).
  - apply (adds_bind _ _ _ 0 0); [apply adds_store_op|]. intros _.
    apply (adds_emit metric_weight (Dispatched (call_reboot_script _ _ _ _))).
  - apply adds_ret.
Qed.

(** X18: one cycle dispatches at most one remediation request and at
    most one metric per pair that pod discovery returned, whatever the
    telemetry, the classifier, the store and the disk do. *)
Theorem monitor_all_nodes_request_bound w :
  ∃ w' new,
    monitor_all_nodes env self w = (Returns (), w')
    ∧ trace w' = trace w ++ new
    ∧ (length (filter is_remediation (requests new))
       ≤ length (pods_with_nodes env))%nat
    ∧ (length (filter is_metric (requests new))
       ≤ length (pods_with_nodes env))%nat.
Proof.
  assert (Hrun : monitor_all_nodes env self w
                 = monitor_each env self (pods_with_nodes env) w).
  { unfold monitor_all_nodes. by destruct (pods_with_nodes env). }
  destruct (monitor_each_completes env self (pods_with_nodes env) w)
    as (w' & Heach & _).
  destruct (adds_monitor_each env self remediation_weight
              ltac:(done) ltac:(done) ltac:(done) ltac:(done)
              policy_adds_remediation (pods_with_nodes env) w)
    as (new & Hnew & Hrem).
  destruct (adds_monitor_each env self metric_weight
              ltac:(done) ltac:(done) ltac:(done) ltac:(done)
              policy_adds_metric (pods_with_nodes env) w)
    as (new' & Hnew' & Hmet).
  rewrite Heach in Hnew, Hnew'. simpl in Hnew, Hnew'.
  rewrite Hnew in Hnew'. apply app_inv_head in Hnew' as <-.
  exists w', new. rewrite Hrun, <- weight_remediation, <- weight_metric.
  done.
Qed.

End CycleExtras.

(** * The exclusion commands of the monitor's command line *)

Section CLIExtras.

Import MonitorCLI.

Variable strftime : Z → string.

(** X19: an exclusion command of the monitor ends with status 1 exactly
    when a required argument is missing ([--instance-id] or [--node-name]
    for [pause], [--instance-id] for [resume]), and then the file is not
    touched; in every other case it ends with status 0, also when the
    store refused the pause or the write failed.  A pause that is recorded
    always gets the default 1800 s, and the reason given, or MANUAL_PAUSE
    when none (or the empty string) is given. *)
Theorem main_exclusion_cmd cmd args current_time disk fs :
  exclusion_cmd args = Some cmd →
  let missing :=
    match cmd with
    | CmdPause => negb (Py.truthy_str (instance_id args))
                  || negb (Py.truthy_str (node_name args))
    | CmdResume => negb (Py.truthy_str (instance_id args))
    | CmdList | CmdCleanup => false
    end in
  ∃ fs',
    main strftime args current_time disk fs
    = Some (if missing then 1 else 0, fs')
    ∧ (missing = true → fs' = fs)
    ∧ (cmd = CmdList → fs' = fs)
    ∧ (cmd = CmdPause → missing = false →
       ∀ id, instance_id args = Some id →
       _load_exclusions fs !! id = None → disk = WriteOk →
       ∃ info, _load_exclusions fs' !! id = Some info
               ∧ ExclusionManager.timeout info = Some 1800
               ∧ ExclusionManager.start_time info = Some current_time
               ∧ ExclusionManager.error_type info
                 = Some (or_str (reason args) "MANUAL_PAUSE")).
Proof.
  intros Hcmd missing. subst missing. unfold main. rewrite Hcmd.
  destruct cmd.
  - eexists. split; [done|]. by repeat split.
  - eexists. split; [done|]. by repeat split.
  - destruct (negb _ || negb _) eqn:Hmissing.
    + eexists. split; [done|]. by repeat split.
    + eexists. split; [done|]. split; [done|]. split; [done|].
      intros _ _ id Hid Hnone ->. rewrite Hid. simpl.
      unfold pause_instance. rewrite add_exclusion_absent by done. simpl.
      rewrite lookup_insert_eq. by eexists.
  - destruct (negb _) eqn:Hmissing.
    + eexists. split; [done|]. by repeat split.
    + eexists. split; [done|]. by repeat split.
Qed.

End CLIExtras.

(** * The further properties at work on concrete inputs *)

Lemma remove_exclusion_removes_one_witness :
  (remove_exclusion Scenario.manager "i-1" WriteOk (Scenario.one_record 900)).1
  = true
  ∧ remove_exclusion Scenario.manager "i-2" WriteOk (Scenario.one_record 900)
    = (false, Scenario.one_record 900).
Proof.
  destruct (remove_exclusion_removes_one Scenario.manager "i-1" WriteOk
              (Scenario.one_record 900)) as (_ & Hpresent & _).
  destruct (remove_exclusion_removes_one Scenario.manager "i-2" WriteOk
              (Scenario.one_record 900)) as (Habsent & _).
  split.
  - apply Hpresent; [vm_compute; by eexists | reflexivity].
  - apply Habsent. reflexivity.
Defined.

Lemma add_then_remove_restores_witness :
  _load_exclusions
    (remove_exclusion Scenario.manager "i-2" WriteOk
       (add_exclusion Scenario.fmt Scenario.manager "i-2" "node-2" "XID_ERROR"
          (Some 200) 10 WriteOk (Scenario.one_record 900)).2).2
  = _load_exclusions (Scenario.one_record 900).
Proof.
  apply (add_then_remove_restores Scenario.fmt Scenario.manager "i-2" "node-2"
           "XID_ERROR" (Some 200) 10 (Scenario.one_record 900)).
  reflexivity.
Defined.

Lemma add_exclusion_then_lookup_witness :
  is_excluded Scenario.manager "i-2"
    (add_exclusion Scenario.fmt Scenario.manager "i-2" "node-2" "XID_ERROR"
       (Some 200) 10 WriteOk (Scenario.one_record 900)).2 = true.
Proof.
  apply (add_exclusion_then_lookup Scenario.fmt Scenario.manager "i-2" "node-2"
           "XID_ERROR" (Some 200) 10 (Scenario.one_record 900)).
  reflexivity.
Defined.


Lemma should_monitor_running_record_witness :
  Py.contains "CRITICAL_X"
    (skip_reason (new_record Scenario.fmt Scenario.manager "node-1" "CRITICAL_X"
                    (Some 900) 0)) = true.
Proof.
  destruct (should_monitor_running_record Scenario.manager "i-1" "node-1" 500
              WriteOk (Scenario.one_record 900)
              (new_record Scenario.fmt Scenario.manager "node-1" "CRITICAL_X"
                 (Some 900) 0) 0 900 eq_refl eq_refl eq_refl
              ltac:(lia) ltac:(discriminate)) as (_ & _ & Herror & _).
  apply Herror. reflexivity.
Defined.

Lemma list_exclusions_items_witness :
  ∃ info,
    _load_exclusions (Scenario.one_record 900) !! "i-1" = Some info
    ∧ ExclusionStatus.item_of Scenario.manager 1000 ("i-1", info)
      ∈ ExclusionStatus.list_exclusions Scenario.manager 1000
          (Scenario.one_record 900).
Proof.
  exists (new_record Scenario.fmt Scenario.manager "node-1" "CRITICAL_X"
            (Some 900) 0).
  split; [reflexivity|].
  apply (list_exclusions_items Scenario.manager 1000 (Scenario.one_record 900)).
  reflexivity.
Defined.

Lemma show_status_displays_while_time_left_witness :
  ¬ ExclusionStatus.displayed "i-1"
      (ExclusionStatus.show_status Scenario.manager 900 (Scenario.one_record 900))
  ∧ (should_monitor Scenario.manager "i-1" "node-1" 900 WriteOk
       (Scenario.one_record 900)).1.1 = false.
Proof.
  destruct (show_status_displays_while_time_left Scenario.manager "i-1" "node-1"
              900 WriteOk (Scenario.one_record 900)
              (new_record Scenario.fmt Scenario.manager "node-1" "CRITICAL_X"
                 (Some 900) 0) 0 900 eq_refl eq_refl eq_refl) as [_ Hgap].
  destruct (Hgap eq_refl ltac:(discriminate)) as [Hhidden Hanswer].
  split; [exact Hhidden|]. rewrite Hanswer. reflexivity.
Defined.

Lemma get_dcgm_pods_with_nodes_names_witness :
  PyText.strip "dcgm-server-8nk94" = "dcgm-server-8nk94".
Proof.
  destruct (get_dcgm_pods_with_nodes_names true true
              ("  dcgm-server-8nk94 | node-2  ")) as [_ Hpairs].
  apply (Hpairs "dcgm-server-8nk94" "node-2").
  vm_compute. left.
Defined.

Lemma get_dcgm_pods_with_nodes_render_witness :
  PodDiscovery.get_dcgm_pods_with_nodes true true
    (PodDiscovery.render (pods_with_nodes Scenario.env))
  = pods_with_nodes Scenario.env.
Proof.
  apply get_dcgm_pods_with_nodes_render.
  repeat constructor; simpl; try discriminate;
    repeat constructor; discriminate.
Defined.

Lemma get_dcgm_pods_with_nodes_by_line_witness :
  PodDiscovery.get_dcgm_pods_with_nodes true true
    ("dcgm-a|node-1" +:+ String PyText.newline
       ("NAME NODE" +:+ String PyText.newline "dcgm-b|node-2"))
  = PodDiscovery.get_dcgm_pods_with_nodes true true
      ("dcgm-a|node-1" +:+ String PyText.newline "dcgm-b|node-2").
Proof.
  apply (get_dcgm_pods_with_nodes_by_line "dcgm-a|node-1" "dcgm-b|node-2"
           "NAME NODE").
  - vm_compute. intros Hin. repeat (apply elem_of_cons in Hin as [Hin | Hin];
                                    [discriminate Hin|]).
    by apply elem_of_nil in Hin.
  - vm_compute. intros Hin. repeat (apply elem_of_cons in Hin as [Hin | Hin];
                                    [discriminate Hin|]).
    by apply elem_of_nil in Hin.
Defined.

Lemma handle_gpu_error_ignores_store_result_witness :
  ∃ w',
    handle_gpu_error Scenario.env Scenario.monitor
      (Scenario.descriptor "XID_ERROR" 1) "node-1" "i-1"
      {| file := Scenario.one_record 900; trace := []; store_ops := 0 |}
    = (Returns (), w')
    ∧ requests (trace w')
      = [send_cloudwatch_metrics "XID_ERROR" 1 "node-1" "i-1";
         call_reboot_script "node-1" "i-1" 30 true]
    ∧ file w' = Scenario.one_record 900.
Proof.
  destruct (handle_gpu_error_ignores_store_result Scenario.env Scenario.monitor
              "XID_ERROR" 1 (Some 0) "node-1" "i-1"
              {| file := Scenario.one_record 900; trace := []; store_ops := 0 |}
              eq_refl) as (w' & Hrun & Hreq & Hkept & _).
  exists w'. split; [exact Hrun|]. split; [exact Hreq|].
  apply Hkept. vm_compute. by eexists.
Defined.

Lemma monitor_single_node_skips_suppressed_witness :
  ∃ w',
    monitor_single_node Scenario.env Scenario.monitor "dcgm-server-zx5gc"
      "node-3" Scenario.after_escalation = (Returns true, w')
    ∧ trace w' = trace Scenario.after_escalation ++ [GetInstanceId "node-3"].
Proof.
  destruct (monitor_single_node_skips_suppressed Scenario.env Scenario.monitor
              "dcgm-server-zx5gc" "node-3" Scenario.after_escalation
              (new_record Scenario.fmt Scenario.manager "node-3"
                 "XID_CRITICAL_79" (Some 900) 1751642182) 1751642182 900
              eq_refl eq_refl eq_refl ltac:(vm_compute; discriminate)
              ltac:(discriminate)) as (w' & Hrun & Htrace & _).
  exists w'. split; [exact Hrun | exact Htrace].
Defined.


Lemma monitor_single_node_fetch_failure_witness :
  ∃ w',
    monitor_single_node Scenario.env Scenario.monitor "dcgm-server-8nk94" "node-2"
      Scenario.start = (Returns false, w')
    ∧ requests (trace w') = [].
Proof.
  destruct (monitor_single_node_fetch_failure Scenario.env Scenario.monitor
              "dcgm-server-8nk94" "node-2" Scenario.start eq_refl)
    as (w' & Hrun & Hreq & _).
  exists w'. split; [exact Hrun | exact Hreq].
Defined.

Lemma monitor_single_node_classification_failure_witness :
  requests
    (trace (monitor_single_node Scenario.env Scenario.monitor "dcgm-server-2gttt"
              "node-1" Scenario.start).2) = [].
Proof.
  apply (monitor_single_node_classification_failure Scenario.env
           Scenario.monitor "dcgm-server-2gttt" "node-1" Scenario.start
           "report of node-1" eq_refl ltac:(discriminate) I).
Defined.

Lemma monitor_single_node_remediates_witness :
  ∃ w',
    monitor_single_node Scenario.env Scenario.monitor "dcgm-server-zx5gc"
      "node-3" Scenario.start = (Returns true, w')
    ∧ requests (trace w')
      = [send_cloudwatch_metrics "XID_CRITICAL_79" 7 "node-3"
           "i-00cca484c3a2e151b";
         call_replace_script "node-3" "i-00cca484c3a2e151b" 900].
Proof.
  destruct (monitor_single_node_remediates Scenario.env Scenario.monitor
              "dcgm-server-zx5gc" "node-3" Scenario.start "report of node-3"
              "XID_CRITICAL_79" 7 (Some 0) eq_refl eq_refl
              ltac:(discriminate) eq_refl eq_refl)
    as (w' & Hrun & Hreq & _).
  exists w'. split; [exact Hrun | exact Hreq].
Defined.


Lemma main_exclusion_cmd_witness :
  ∃ fs',
    MonitorCLI.main Scenario.fmt
      {| MonitorCLI.exclusion_cmd := Some MonitorCLI.CmdPause;
         MonitorCLI.instance_id := Some "i-2";
         MonitorCLI.node_name := None;
         MonitorCLI.reason := None |} 0 WriteOk FileMissing
    = Some (1, fs')
    ∧ fs' = FileMissing.
Proof.
  destruct (main_exclusion_cmd Scenario.fmt MonitorCLI.CmdPause
              {| MonitorCLI.exclusion_cmd := Some MonitorCLI.CmdPause;
                 MonitorCLI.instance_id := Some "i-2";
                 MonitorCLI.node_name := None;
                 MonitorCLI.reason := None |} 0 WriteOk FileMissing eq_refl)
    as (fs' & Hrun & Hmissing & _).
  exists fs'. split; [exact Hrun|]. apply Hmissing. reflexivity.
Defined.
